(** * Roo-Code: the mode/tool permission gate and the task-header title

    A shallow embedding of

    - [validateToolUse]  (src/core/mode-validator.ts), the guard that turns a
      negative answer of the capability resolver [isToolAllowedForMode] into
      a thrown [Error];
    - [firstLineOfTask]  (webview-ui/src/components/chat/TaskHeader.tsx), the
      memoised title shown in the collapsed task header;
    - the [TaskHeader] component of the same file and its four helper
      components, as functions to the tree they render.

    JavaScript strings are modelled as [string]; an optional argument
    ([x?: T]) is an [option T], with [None] for [undefined]; a
    [Record<string, V>] is a [gmap string V]; an abrupt completion ([throw])
    is the [Throw] constructor of [Completion]. *)

From Stdlib Require Import ZArith QArith Lia.
From stdpp Require Import gmap strings list fin_maps.

Local Open Scope string_scope.

(** ** JavaScript values and completions *)

Module JS.

(** The property values that occur on the objects built here. *)
Inductive Value : Type :=
| Undefined : Value
| Str (s : string) : Value.

(** An object created by [new C(...)]: the name its prototype reports
    ([C.prototype.name]) and its own properties. *)
Record Object : Type := mkObject {
  proto_name : string;
  own : gmap string Value;
}.

(** [o[k]]: an own property, else what the prototype supplies ([name]),
    else [undefined]. *)
Definition get (o : Object) (k : string) : Value :=
  match own o !! k with
  | Some v => v
  | None => if String.eqb k "name" then Str (proto_name o) else Undefined
  end.

(** [new Error(message)]: the only own data property set by the
    constructor is [message]. *)
Definition new_Error (message : string) : Object :=
  {| proto_name := "Error"; own := {[ "message" := Str message ]} |}.

(** How a call completes: it returns a value or throws an object. *)
Inductive Completion (A : Type) : Type :=
| Normal (a : A) : Completion A
| Throw (e : Object) : Completion A.
Arguments Normal {A} a.
Arguments Throw {A} e.

(** [a ?? b] where [a] is an optional argument. *)
Definition nullish {A : Type} (a : option A) (b : A) : A :=
  match a with
  | Some x => x
  | None => b
  end.

(** The double-quote character (code 34) used inside template literals. *)
Definition dquote : string := String (Ascii.ascii_of_nat 34) EmptyString.

End JS.

Import JS.

Notation "a ?? b" := (nullish a b) (at level 40, left associativity).

(** ** The permission gate (src/core/mode-validator.ts) *)

Definition ToolName : Type := string.
Definition Mode : Type := string.

Section ModeValidator.

(** [ModeConfig] is declared in ../shared/modes and the values of
    [toolParams] have type [unknown]: both are opaque to the gate. *)
Context {ModeConfig Unknown : Type}.

(** The type of [isToolAllowedForMode] as the gate calls it. *)
Definition Resolver : Type :=
  ToolName -> Mode -> list ModeConfig ->
  option (gmap string bool) -> option (gmap string Unknown) -> bool.

(** The capability resolver imported from ../shared/modes. *)
Variable isToolAllowedForMode : Resolver.

(** The template literal [`Tool "${toolName}" is not allowed in ${mode} mode.`]. *)
Definition denialMessage (toolName : ToolName) (mode : Mode) : string :=
  "Tool " +:+ dquote +:+ toolName +:+ dquote +:+
  " is not allowed in " +:+ mode +:+ " mode.".

Definition validateToolUse
    (toolName : ToolName) (mode : Mode)
    (customModes : option (list ModeConfig))
    (toolRequirements : option (gmap string bool))
    (toolParams : option (gmap string Unknown)) : Completion unit :=
  if negb (isToolAllowedForMode toolName mode (customModes ?? [])
             toolRequirements toolParams)
  then Throw (new_Error (denialMessage toolName mode))
  else Normal tt.

End ModeValidator.

(** Modelled from the spec: the resolver [isToolAllowedForMode] lives in
    ../shared/modes, outside the sources at hand.  Of its treatment of the
    two optional arguments the spec says that absence is treated identically
    to no additional constraints to check, the empty mapping being the
    no-constraints value. *)
Definition absentMeansUnconstrained {ModeConfig Unknown : Type}
    (r : Resolver (ModeConfig := ModeConfig) (Unknown := Unknown)) : Prop :=
  (forall toolName mode customModes toolParams,
      r toolName mode customModes None toolParams =
      r toolName mode customModes (Some ∅) toolParams) /\
  (forall toolName mode customModes toolRequirements,
      r toolName mode customModes toolRequirements None =
      r toolName mode customModes toolRequirements (Some ∅)).

Arguments Resolver : clear implicits.

(** The string contains the double-quote character. *)
Definition hasQuote (s : string) : Prop :=
  exists before after, s = before +:+ dquote +:+ after.

(** ** The gate over a store

    In JavaScript the three optional arguments are references.  To state
    what a call leaves untouched, the same function is written once more
    with the heap threaded through it: arguments are locations, the literal
    [[]] of [customModes ?? []] allocates a fresh empty array, and the
    resolver may read and write the heap. *)

Module Heap.

Definition loc : Type := positive.

Section Cells.

Context {ModeConfig Unknown : Type}.

(** What a location holds. *)
Inductive Cell : Type :=
| ModeArray (items : list loc) : Cell
| ModeCell (config : ModeConfig) : Cell
| Requirements (flags : gmap string bool) : Cell
| Params (params : gmap string Unknown) : Cell.

Definition alloc (c : Cell) (h : gmap loc Cell) : loc * gmap loc Cell :=
  let l := fresh (dom h) in (l, <[l := c]> h).

(** Reading an argument back as a value. *)
Definition readMode (h : gmap loc Cell) (l : loc) : option ModeConfig :=
  match h !! l with
  | Some (ModeCell c) => Some c
  | _ => None
  end.

Definition readModes (h : gmap loc Cell) (l : loc) : list ModeConfig :=
  match h !! l with
  | Some (ModeArray items) => omap (readMode h) items
  | _ => []
  end.

Definition readRequirements (h : gmap loc Cell) (l : loc)
  : option (gmap string bool) :=
  match h !! l with
  | Some (Requirements r) => Some r
  | _ => None
  end.

Definition readParams (h : gmap loc Cell) (l : loc)
  : option (gmap string Unknown) :=
  match h !! l with
  | Some (Params p) => Some p
  | _ => None
  end.

(** The type of [isToolAllowedForMode] over the heap. *)
Definition HeapResolver : Type :=
  ToolName -> Mode -> loc -> option loc -> option loc ->
  gmap loc Cell -> bool * gmap loc Cell.

(** A resolver that only reads its arguments. *)
Definition lift (r : Resolver ModeConfig Unknown) : HeapResolver :=
  fun toolName mode customModes toolRequirements toolParams h =>
    (r toolName mode (readModes h customModes)
       (toolRequirements ≫= readRequirements h)
       (toolParams ≫= readParams h), h).

(** A resolver leaves the heap as it found it. *)
Definition readOnly (r : HeapResolver) : Prop :=
  forall toolName mode customModes toolRequirements toolParams h,
    (r toolName mode customModes toolRequirements toolParams h).2 = h.

Variable isToolAllowedForMode : HeapResolver.

Definition validateToolUse
    (toolName : ToolName) (mode : Mode)
    (customModes toolRequirements toolParams : option loc)
    (h : gmap loc Cell) : Completion unit * gmap loc Cell :=
  let '(modes, h1) :=
    match customModes with
    | Some l => (l, h)
    | None => alloc (ModeArray []) h
    end in
  let '(allowed, h2) :=
    isToolAllowedForMode toolName mode modes toolRequirements toolParams h1 in
  if negb allowed
  then (Throw (new_Error (denialMessage toolName mode)), h2)
  else (Normal tt, h2).

End Cells.

Arguments Cell : clear implicits.
Arguments HeapResolver : clear implicits.

End Heap.

(** ** The task-header title (webview-ui/src/components/chat/TaskHeader.tsx) *)

Module TaskHeader.

(** The two fields of [ClineMessage] the header reads; both are optional. *)
Record ClineMessage : Type := mkClineMessage {
  text : option string;
  images : option (list string);
}.

(** The one-character string written [\n] in the source. *)
Definition newline : string := String (Ascii.ascii_of_nat 10) EmptyString.

(** [String.prototype.indexOf(searchString)]: the least index at which
    [searchString] occurs, or [-1]. *)
Fixpoint indexOfFrom (s searchString : string) (i : Z) : Z :=
  if String.prefix searchString s then i
  else match s with
       | EmptyString => -1
       | String _ rest => indexOfFrom rest searchString (i + 1)
       end.

Definition indexOf (s searchString : string) : Z :=
  indexOfFrom s searchString 0.

(** [String.prototype.substring(start, end)]: both indices are clamped to
    [0 .. length] and swapped when [start > end]. *)
Definition clamp (n len : Z) : Z := Z.min (Z.max n 0) len.

Definition substring (s : string) (start end_ : Z) : string :=
  let len := Z.of_nat (String.length s) in
  let finalStart := clamp start len in
  let finalEnd := clamp end_ len in
  let from := Z.min finalStart finalEnd in
  let to := Z.max finalStart finalEnd in
  String.substring (Z.to_nat from) (Z.to_nat (to - from)) s.

(** [!s] for an optional string: [undefined] and the empty string are falsy. *)
Definition falsy (s : option string) : bool :=
  match s with
  | None => true
  | Some EmptyString => true
  | Some (String _ _) => false
  end.

(** The callback passed to [useMemo]; [task] is [None] when the prop is
    [null] or [undefined]. *)
Definition firstLineOfTask (task : option ClineMessage) : string :=
  match task with
  | None => EmptyString
  | Some task =>
      if falsy (text task) then EmptyString
      else
        let task_text := default EmptyString (text task) in
        let newlineIndex := indexOf task_text newline in
        if (newlineIndex =? -1)%Z then task_text
        else substring task_text 0 newlineIndex
  end.

(** The text contains a newline character. *)
Definition hasNewline (s : string) : Prop :=
  exists before after, s = before +:+ newline +:+ after.

(** In the words of the title's description: the prefix of the text
    strictly before its first newline character. *)
Definition beforeFirstNewline (s line : string) : Prop :=
  (exists after, s = line +:+ newline +:+ after) /\ ~ hasNewline line.

End TaskHeader.

(** ** JavaScript numbers

    The header only compares numbers, tests them for truthiness and hands
    them on.  Every double is [NaN], an infinity or a rational, so a number
    is modelled as one of these; comparison and truthiness are exact on
    them.  Both zeros are [Finite 0]. *)

Module Num.

Inductive Number : Type :=
| NaN : Number
| PosInfinity : Number
| NegInfinity : Number
| Finite (q : Q) : Number.

Definition of_Z (z : Z) : Number := Finite (inject_Z z).

Definition Qltb (x y : Q) : bool :=
  (Qnum x * QDen y <? Qnum y * QDen x)%Z.

(** [a < b]: false as soon as one side is [NaN]. *)
Definition lt (a b : Number) : bool :=
  match a, b with
  | NaN, _ | _, NaN => false
  | Finite x, Finite y => Qltb x y
  | NegInfinity, NegInfinity => false
  | NegInfinity, _ => true
  | _, NegInfinity => false
  | PosInfinity, _ => false
  | Finite _, PosInfinity => true
  end.

(** [a > b]. *)
Definition gt (a b : Number) : bool := lt b a.

(** [!!a]: zero and [NaN] are falsy. *)
Definition truthy (a : Number) : bool :=
  match a with
  | NaN => false
  | Finite q => negb (Qnum q =? 0)%Z
  | PosInfinity | NegInfinity => true
  end.

(** [a || b] on numbers. *)
Definition or (a b : Number) : Number := if truthy a then a else b.

(** [a || b] where [a] may be [undefined]. *)
Definition or_undefined (a : option Number) (b : Number) : Number :=
  match a with
  | Some n => or n b
  | None => b
  end.

(** [typeof a === "number" && a > 0] for a value that may be [undefined]. *)
Definition isPositiveNumber (a : option Number) : bool :=
  match a with
  | Some n => gt n (of_Z 0)
  | None => false
  end.

End Num.

(** ** The task header as a tree (TaskHeader.tsx)

    A component is a function from its props, and from what its hooks
    return, to the tree it renders.  The components this file defines
    ([TaskHeaderContextDisplay], [TaskHeaderTokenUsageDisplay],
    [TaskHeaderCacheInfoDisplay], [TaskHeaderApiCostDisplay]) are rendered in
    place; the imported ones ([Mention], [Thumbnails], [TaskActions],
    [ContextWindowProgress], [Button], [VSCodeBadge], [CloudUpload],
    [CloudDownload]) stay as elements carrying their props. *)

Module View.

Import Num TaskHeader.

Section Components.

(** Types declared outside the sources at hand: the provider settings and
    the history item returned by [useExtensionState], the model info
    returned by [useSelectedModel], and what [getMaxTokensForModel] returns. *)
Context {ApiConfiguration HistoryItem ModelInfo MaxTokens : Type}.

(** The two event handlers the header installs:
    [() => setIsTaskExpanded(!isTaskExpanded)] and the [onClose] prop. *)
Inductive Handler : Type :=
| SetIsTaskExpanded (value : bool) : Handler
| OnClose : Handler.

Inductive PropValue : Type :=
| PString (s : string) : PropValue
| PText (s : option string) : PropValue
| PNumber (n : Number) : PropValue
| PHandler (h : Handler) : PropValue
| PStyle (declarations : list (string * string)) : PropValue
| PRef (name : string) : PropValue
| PImages (images : list string) : PropValue
| PItem (item : HistoryItem) : PropValue
| PMaxTokens (m : MaxTokens) : PropValue.

#[local] Set Warnings "-register-all".

(** A rendered tree.  [Null] stands for [null] and [false], which render
    nothing. *)
Inductive Node : Type :=
| Null : Node
| Text (s : string) : Node
| Element (type : string) (props : list (string * PropValue))
          (children : list Node) : Node.

(** [c && node]. *)
Definition when (c : bool) (node : Node) : Node := if c then node else Null.

(** [typeof a === "number" && a > 0 && node], where [node] may read [a]. *)
Definition whenPositive (a : option Number) (node : Number -> Node) : Node :=
  match a with
  | Some n => when (gt n (of_Z 0)) (node n)
  | None => Null
  end.

(** What a render produces: a tree, or the [TypeError] of reading a
    property of [null] or [undefined]. *)
Inductive Outcome : Type :=
| Rendered (n : Node) : Outcome
| TypeError : Outcome.

(** What the header calls without defining it: the imported
    [formatLargeNumber], [getMaxTokensForModel] and [cn], the built-in
    [Number.prototype.toFixed], and the [contextWindow] field of
    [ModelInfo]. *)
Record Imports : Type := mkImports {
  formatLargeNumber : Number -> string;
  getMaxTokensForModel : option ModelInfo -> ApiConfiguration -> MaxTokens;
  cn : list string -> string;
  toFixed : Number -> Z -> string;
  contextWindowOf : ModelInfo -> option Number;
}.

(** The props the header reads ([onClose] is the [OnClose] handler).  The
    four counts the code tests with [typeof] before use may be [undefined],
    as may the task, which [firstLineOfTask] tests with [!task]. *)
Record TaskHeaderProps : Type := mkProps {
  task : option ClineMessage;
  tokensIn : option Number;
  tokensOut : option Number;
  doesModelSupportPromptCache : bool;
  cacheWrites : option Number;
  cacheReads : option Number;
  totalCost : Number;
  contextTokens : Number;
}.

(** What the hooks return in one render: [useTranslation],
    [useExtensionState], [useSelectedModel], [useState] and
    [useWindowSize]. *)
Record Hooks : Type := mkHooks {
  t : string -> string;
  apiConfiguration : ApiConfiguration;
  currentTaskItem : HistoryItem;
  model : option ModelInfo;
  isTaskExpanded : bool;
  windowWidth : Number;
}.

Variable imports : Imports.

Definition TaskHeaderContextDisplay
    (t : string -> string) (windowWidth contextWindow contextTokens : Number)
    (model : option ModelInfo) (apiConfiguration : ApiConfiguration) : Node :=
  Element "div"
    [("className",
      PString ("w-full flex " +:+
               (if lt windowWidth (of_Z 400) then "flex-col" else "flex-row") +:+
               " gap-1 h-auto items-center"))]
    [ Element "div" [("className", PString "flex items-center gap-1 flex-shrink-0")]
        [ Element "span"
            [("className", PString "font-bold");
             ("data-testid", PString "context-window-label")]
            [ Text (t "chat:task.contextWindow") ] ];
      Element "ContextWindowProgress"
        [("contextWindow", PNumber contextWindow);
         ("contextTokens", PNumber (Num.or contextTokens (of_Z 0)));
         ("maxTokens",
          PMaxTokens (getMaxTokensForModel imports model apiConfiguration))]
        [] ].

Definition TaskHeaderTokenUsageDisplay
    (t : string -> string) (tokensIn tokensOut : option Number) : Node :=
  Element "div" [("className", PString "flex items-center gap-1 flex-wrap")]
    [ Element "span" [("className", PString "font-bold")]
        [ Text (t "chat:task.tokens") ];
      whenPositive tokensIn (fun tokensIn =>
        Element "span" [("className", PString "flex items-center gap-0.5")]
          [ Element "i"
              [("className", PString "codicon codicon-arrow-up text-xs font-bold")] [];
            Text (formatLargeNumber imports tokensIn) ]);
      whenPositive tokensOut (fun tokensOut =>
        Element "span" [("className", PString "flex items-center gap-0.5")]
          [ Element "i"
              [("className", PString "codicon codicon-arrow-down text-xs font-bold")] [];
            Text (formatLargeNumber imports tokensOut) ]) ].

Definition TaskHeaderCacheInfoDisplay
    (t : string -> string) (doesModelSupportPromptCache : bool)
    (cacheWrites cacheReads : option Number) : Node :=
  if negb doesModelSupportPromptCache ||
     negb (isPositiveNumber cacheReads || isPositiveNumber cacheWrites)
  then Null
  else
    Element "div" [("className", PString "flex items-center gap-1 flex-wrap h-[20px]")]
      [ Element "span" [("className", PString "font-bold")]
          [ Text (t "chat:task.cache") ];
        whenPositive cacheWrites (fun cacheWrites =>
          Element "span" [("className", PString "flex items-center gap-0.5")]
            [ Element "CloudUpload" [("size", PNumber (of_Z 16))] [];
              Text (formatLargeNumber imports cacheWrites) ]);
        whenPositive cacheReads (fun cacheReads =>
          Element "span" [("className", PString "flex items-center gap-0.5")]
            [ Element "CloudDownload" [("size", PNumber (of_Z 16))] [];
              Text (formatLargeNumber imports cacheReads) ]) ].

Definition TaskHeaderApiCostDisplay
    (t : string -> string) (totalCost : Number) : Node :=
  if negb (truthy totalCost) then Null
  else
    Element "div" [("className", PString "flex items-center gap-1")]
      [ Element "span" [("className", PString "font-bold")]
          [ Text (t "chat:task.apiCost") ];
        Element "span" [] [ Text "$"; Text (toFixed imports totalCost 2) ] ].

(** The header itself.  In the expanded branch [task.text] and
    [task.images] are read without the guard [firstLineOfTask] has. *)
Definition TaskHeader (props : TaskHeaderProps) (hooks : Hooks) : Outcome :=
  let t := t hooks in
  let isTaskExpanded := isTaskExpanded hooks in
  let windowWidth := windowWidth hooks in
  let model := model hooks in
  let contextWindow :=
    or_undefined (model ≫= contextWindowOf imports) (of_Z 1) in
  let firstLineOfTask := firstLineOfTask (task props) in
  let header :=
    Element "div" [("className", PString "flex justify-between items-center gap-2")]
      [ Element "div"
          [("className",
            PString "flex items-center cursor-pointer -ml-0.5 select-none grow min-w-0");
           ("onClick", PHandler (SetIsTaskExpanded (negb isTaskExpanded)))]
          [ Element "div" [("className", PString "flex items-center shrink-0")]
              [ Element "span"
                  [("className",
                    PString ("codicon codicon-chevron-" +:+
                             (if isTaskExpanded then "down" else "right")))]
                  [] ];
            Element "div"
              [("className",
                PString "ml-1.5 whitespace-nowrap overflow-hidden text-ellipsis grow min-w-0")]
              [ Element "span" [("className", PString "font-bold")]
                  [ Text (t "chat:task.title");
                    when (negb isTaskExpanded) (Text ":") ];
                when (negb isTaskExpanded)
                  (Element "span" [("className", PString "ml-1")]
                     [ Element "Mention" [("text", PText (Some firstLineOfTask))] [] ]) ] ];
        Element "Button"
          [("variant", PString "ghost");
           ("size", PString "icon");
           ("onClick", PHandler OnClose);
           ("title", PString (t "chat:task.closeAndStart"));
           ("className", PString "shrink-0 w-5 h-5")]
          [ Element "span" [("className", PString "codicon codicon-close")] [] ] ] in
  let collapsed :=
    when (negb isTaskExpanded && gt contextWindow (of_Z 0))
      (Element "div" [("className", PString "flex flex-col gap-1")]
         [ Element "div"
             [("className",
               PString ("w-full flex " +:+
                        (if lt windowWidth (of_Z 400) then "flex-col" else "flex-row") +:+
                        " gap-1 h-auto items-center"))]
             [ TaskHeaderContextDisplay t windowWidth contextWindow
                 (contextTokens props) model (apiConfiguration hooks) ];
           Element "div" [("className", PString "flex justify-between items-center h-[20px]")]
             [ Element "div" [("className", PString "flex items-center gap-1 flex-wrap")]
                 [ Text " ";
                   TaskHeaderTokenUsageDisplay t (tokensIn props) (tokensOut props);
                   when (truthy (totalCost props))
                     (Element "VSCodeBadge" [("className", PString "ml-1")]
                        [ Text "$"; Text (toFixed imports (totalCost props) 2) ]) ];
               Element "div" [("className", PString "flex items-center gap-1")]
                 [ Text " ";
                   when (doesModelSupportPromptCache props &&
                         isPositiveNumber (cacheReads props))
                     (Element "span" [("className", PString "flex items-center gap-0.5")]
                        [ Element "CloudDownload" [("size", PNumber (of_Z 16))] [] ]);
                   Element "TaskActions" [("item", PItem (currentTaskItem hooks))] [] ] ] ]) in
  let expanded (task : ClineMessage) :=
    Element "Fragment" []
      [ Element "div"
          [("ref", PRef "textContainerRef");
           ("className",
            PString "-mt-0.5 text-vscode-font-size overflow-y-auto break-words break-anywhere relative")]
          [ Element "div"
              [("ref", PRef "textRef");
               ("className",
                PString "overflow-auto max-h-80 whitespace-pre-wrap break-words break-anywhere");
               ("style",
                PStyle [("display", "-webkit-box");
                        ("WebkitLineClamp", "unset");
                        ("WebkitBoxOrient", "vertical")])]
              [ Element "Mention" [("text", PText (text task))] [] ] ];
        match images task with
        | Some images =>
            when (0 <? Z.of_nat (length images))%Z
              (Element "Thumbnails" [("images", PImages images)] [])
        | None => Null
        end;
        Element "div" [("className", PString "flex flex-col gap-1")]
          [ when (gt contextWindow (of_Z 0))
              (TaskHeaderContextDisplay t windowWidth contextWindow
                 (contextTokens props) model (apiConfiguration hooks));
            Element "div" [("className", PString "flex justify-between items-center h-[20px]")]
              [ TaskHeaderTokenUsageDisplay t (tokensIn props) (tokensOut props);
                when (negb (truthy (totalCost props)))
                  (Element "TaskActions" [("item", PItem (currentTaskItem hooks))] []) ];
            TaskHeaderCacheInfoDisplay t (doesModelSupportPromptCache props)
              (cacheWrites props) (cacheReads props);
            when (truthy (totalCost props))
              (Element "div"
                 [("className", PString "flex justify-between items-center h-[20px]")]
                 [ TaskHeaderApiCostDisplay t (totalCost props);
                   Element "TaskActions" [("item", PItem (currentTaskItem hooks))] [] ]) ] ] in
  let frame (body : Node) :=
    Element "div" [("className", PString "py-2 px-3")]
      [ Element "div"
          [("className",
            PString (cn imports
              [ "rounded-xs p-2.5 flex flex-col gap-1.5 relative z-1 border";
                if isTaskExpanded
                then "border-vscode-panel-border text-vscode-foreground"
                else "border-vscode-panel-border/80 text-vscode-foreground/80" ]))]
          [ header; collapsed; body ] ] in
  if isTaskExpanded then
    match task props with
    | Some task => Rendered (frame (expanded task))
    | None => TypeError
    end
  else Rendered (frame Null).

(** ** Looking into a tree *)

(** All the nodes of a tree, the root first. *)
Fixpoint nodes (n : Node) : list Node :=
  n :: match n with
       | Element _ _ children =>
           (fix all (l : list Node) : list Node :=
              match l with
              | [] => []
              | c :: l' => (nodes c ++ all l')%list
              end) children
       | _ => []
       end.

Definition isElement (type : string) (n : Node) : bool :=
  match n with
  | Element type' _ _ => String.eqb type type'
  | _ => false
  end.

(** The elements of a given type in a tree, in document order. *)
Definition elements (type : string) (n : Node) : list Node :=
  List.filter (isElement type) (nodes n).

(** The elements of a given type in what a render produced. *)
Definition rendered (type : string) (o : Outcome) : list Node :=
  match o with
  | Rendered n => elements type n
  | TypeError => []
  end.

(** The value of a prop of an element. *)
Definition prop (name : string) (n : Node) : option PropValue :=
  match n with
  | Element _ props _ =>
      snd <$> List.find (fun p => String.eqb (fst p) name) props
  | _ => None
  end.

(** The texts of a tree, in document order. *)
Definition texts (n : Node) : list string :=
  omap (fun n => match n with Text s => Some s | _ => None end) (nodes n).

End Components.

End View.

(** ** Test doubles

    A small mode registry in the shape the gate's tests configure: a mode is
    resolved among the custom modes first and the built-in ones next, and a
    tool whose requirement flag is [false] is refused. *)

Module Fixture.

Record ModeConfig : Type := mkMode {
  slug : string;
  tools : list string;
}.

Definition builtinModes : list ModeConfig :=
  [ mkMode "code" ["read_file"; "write_to_file"; "execute_command"];
    mkMode "ask" ["read_file"; "search_files"] ].

Definition resolver : Resolver ModeConfig string :=
  fun toolName mode customModes toolRequirements toolParams =>
    match (toolRequirements ?? ∅) !! toolName with
    | Some false => false
    | _ =>
        match find (fun c => String.eqb (slug c) mode) (customModes ++ builtinModes) with
        | Some c => bool_decide (toolName ∈ tools c)
        | None => false
        end
    end.

(** A resolver that refuses every call made without requirement flags. *)
Definition strictResolver : Resolver ModeConfig string :=
  fun toolName mode customModes toolRequirements toolParams =>
    match toolRequirements with
    | Some _ => true
    | None => false
    end.

(** A heap holding one custom mode, its array, a requirements record and
    a parameter record. *)
Definition heap : gmap Heap.loc (Heap.Cell ModeConfig string) :=
  {[ 1%positive := Heap.ModeCell (mkMode "docs" ["read_file"]);
     2%positive := Heap.ModeArray [1%positive];
     3%positive := Heap.Requirements {[ "execute_command" := false ]};
     4%positive := Heap.Params {[ "path" := "README.md" ]} ]}.

End Fixture.

(** ** A sample header

    Props and hook results for one task, with stand-ins for the imported
    functions; the model info is reduced to its context window. *)

Module Sample.

Import Num TaskHeader View.

Definition imports : Imports (ApiConfiguration := unit) (ModelInfo := Number)
                             (MaxTokens := option Number) :=
  mkImports (fun _ => "1.2k") (fun model _ => model) (String.concat " ")
            (fun _ _ => "0.42") Some.

Definition props : TaskHeaderProps :=
  mkProps
    (Some (mkClineMessage (Some ("Fix the login bug" +:+ newline +:+ "Steps:"))
                          (Some ["screenshot.png"])))
    (Some (of_Z 1200)) (Some (of_Z 0)) true None (Some (of_Z 5))
    (Finite (42 # 100)) (of_Z 3000).

Definition hooks (isTaskExpanded : bool)
  : Hooks (ApiConfiguration := unit) (HistoryItem := string) (ModelInfo := Number) :=
  mkHooks (fun key => key) tt "task-1" (Some (of_Z 200000)) isTaskExpanded (of_Z 800).

End Sample.

(** * Properties of the permission gate *)

Section ModeValidatorFacts.

Context {ModeConfig Unknown : Type}.
Variable isToolAllowedForMode : Resolver ModeConfig Unknown.

(** The gate is a case split on the resolver's answer. *)
Lemma validateToolUse_unfold toolName mode customModes toolRequirements toolParams :
  validateToolUse isToolAllowedForMode toolName mode
      customModes toolRequirements toolParams =
  if isToolAllowedForMode toolName mode (customModes ?? []) toolRequirements toolParams
  then Normal tt
  else Throw (new_Error (denialMessage toolName mode)).
Proof.
  unfold validateToolUse.
  now destruct (isToolAllowedForMode _ _ _ _ _).
Qed.

Lemma get_message_new_Error msg : get (new_Error msg) "message" = Str msg.
Proof. reflexivity. Qed.

(** C1. Whenever the resolver answers [false], the gate throws, and the
    message of what it throws is exactly the sentence of the template
    literal: the word Tool, the tool name between double quotes, the words
    is not allowed in, the mode, and the word mode with a full stop. *)
Theorem validateToolUse_denied toolName mode customModes toolRequirements toolParams :
  isToolAllowedForMode toolName mode
      (customModes ?? []) toolRequirements toolParams = false ->
  exists e,
    validateToolUse isToolAllowedForMode toolName mode
        customModes toolRequirements toolParams = Throw e /\
    get e "message" =
      Str ("Tool " +:+ dquote +:+ toolName +:+ dquote +:+
           " is not allowed in " +:+ mode +:+ " mode.").
Proof.
  intros Hdenied.
  exists (new_Error (denialMessage toolName mode)).
  split.
  - rewrite validateToolUse_unfold, Hdenied. reflexivity.
  - apply get_message_new_Error.
Qed.

(** C2. The gate throws if and only if the resolver answers [false]; when
    the resolver answers [true] the call returns, and returns nothing; a
    denial is the single completion of the call, handed to its caller. *)
Theorem validateToolUse_throws_iff toolName mode customModes toolRequirements toolParams :
  let answer := isToolAllowedForMode toolName mode
      (customModes ?? []) toolRequirements toolParams in
  let outcome := validateToolUse isToolAllowedForMode toolName mode
      customModes toolRequirements toolParams in
  ((exists e, outcome = Throw e) <-> answer = false) /\
  (answer = true -> outcome = Normal tt) /\
  (answer = false -> exists! e, outcome = Throw e).
Proof.
  intros answer outcome.
  assert (Hcases : outcome = if answer then Normal tt
                             else Throw (new_Error (denialMessage toolName mode)))
    by apply validateToolUse_unfold.
  clearbody answer outcome.
  destruct answer; subst outcome.
  - split; [split|split].
    + intros [e He]. discriminate He.
    + discriminate.
    + reflexivity.
    + discriminate.
  - split; [split|split].
    + reflexivity.
    + intros _. eexists. reflexivity.
    + discriminate.
    + intros _. exists (new_Error (denialMessage toolName mode)).
      split; [reflexivity|].
      intros e' He'. now injection He'.
Qed.

(** C3 (as amended). On denial the gate throws a plain [Error]: its only own
    property is [message], which holds the denial sentence with the tool
    name and the mode spliced in; it has no [toolName] and no [mode]
    property of its own, and reading either yields [undefined]. *)
Theorem validateToolUse_denial_is_plain_Error
    toolName mode customModes toolRequirements toolParams :
  isToolAllowedForMode toolName mode
      (customModes ?? []) toolRequirements toolParams = false ->
  exists e,
    validateToolUse isToolAllowedForMode toolName mode
        customModes toolRequirements toolParams = Throw e /\
    get e "name" = Str "Error" /\
    get e "message" = Str (denialMessage toolName mode) /\
    dom (own e) = {[ "message" ]} /\
    get e "toolName" = Undefined /\
    get e "mode" = Undefined.
Proof.
  intros Hdenied.
  exists (new_Error (denialMessage toolName mode)).
  rewrite validateToolUse_unfold, Hdenied.
  split; [reflexivity|].
  split; [reflexivity|].
  split; [reflexivity|].
  split; [|split; reflexivity].
  unfold new_Error; simpl.
  apply dom_singleton_L.
Qed.

(** C5. With an empty [customModes] array the call is defined for every
    choice of the other arguments, and its outcome is the resolver's
    decision on the empty array: a return when it allows, the denial
    otherwise. *)
Theorem validateToolUse_empty_customModes toolName mode toolRequirements toolParams :
  validateToolUse isToolAllowedForMode toolName mode
      (Some []) toolRequirements toolParams =
  if isToolAllowedForMode toolName mode [] toolRequirements toolParams
  then Normal tt
  else Throw (new_Error (denialMessage toolName mode)).
Proof. apply validateToolUse_unfold. Qed.

(** C6. For a resolver that treats an absent requirements or parameter
    record as the empty one, calling the gate without the two records gives
    the outcome of calling it with two empty records. *)
Theorem validateToolUse_omitted_records toolName mode customModes :
  absentMeansUnconstrained isToolAllowedForMode ->
  validateToolUse isToolAllowedForMode toolName mode customModes None None =
  validateToolUse isToolAllowedForMode toolName mode customModes (Some ∅) (Some ∅).
Proof.
  intros [Hreq Hpar].
  rewrite !validateToolUse_unfold.
  now rewrite Hreq, Hpar.
Qed.

(** C8. If the resolver refuses [execute_command] and allows [read_file] in
    mode [ask] with no custom modes, then the first call throws with the
    message for [execute_command] and [ask], and the second returns. *)
Theorem validateToolUse_ask_scenario :
  isToolAllowedForMode "execute_command" "ask" [] None None = false ->
  isToolAllowedForMode "read_file" "ask" [] None None = true ->
  (exists e,
      validateToolUse isToolAllowedForMode "execute_command" "ask"
          (Some []) None None = Throw e /\
      get e "message" =
        Str ("Tool " +:+ dquote +:+ "execute_command" +:+ dquote +:+
             " is not allowed in ask mode.")) /\
  validateToolUse isToolAllowedForMode "read_file" "ask"
      (Some []) None None = Normal tt.
Proof.
  intros Hexec Hread.
  rewrite !validateToolUse_unfold; simpl.
  rewrite Hexec, Hread.
  split; [|reflexivity].
  eexists. split; reflexivity.
Qed.

(** C9. Leaving [customModes] out is the same as passing the empty array. *)
Theorem validateToolUse_customModes_default toolName mode toolRequirements toolParams :
  validateToolUse isToolAllowedForMode toolName mode None toolRequirements toolParams =
  validateToolUse isToolAllowedForMode toolName mode
      (Some []) toolRequirements toolParams.
Proof.
  rewrite !validateToolUse_unfold.
  reflexivity.
Qed.

End ModeValidatorFacts.

(** ** The gate on the test doubles *)

Lemma fixture_absentMeansUnconstrained : absentMeansUnconstrained Fixture.resolver.
Proof. split; intros; reflexivity. Qed.

(** The gate hands the two records to the resolver as it received them: only
    [customModes] is given a default.  A resolver that tells an absent
    record from an empty one is therefore reflected in the outcome. *)
Example validateToolUse_forwards_absent_records :
  validateToolUse Fixture.strictResolver "read_file" "ask" None None None =
    Throw (new_Error (denialMessage "read_file" "ask")) /\
  validateToolUse Fixture.strictResolver "read_file" "ask" None (Some ∅) (Some ∅) =
    Normal tt.
Proof. split; reflexivity. Qed.

Lemma validateToolUse_denied_witness :
  Fixture.resolver "execute_command" "ask" (Some [] ?? []) None None = false /\
  exists e,
    validateToolUse Fixture.resolver "execute_command" "ask" (Some []) None None = Throw e /\
    get e "message" =
      Str ("Tool " +:+ dquote +:+ "execute_command" +:+ dquote +:+
           " is not allowed in " +:+ "ask" +:+ " mode.").
Proof.
  split; [reflexivity|].
  apply (validateToolUse_denied Fixture.resolver "execute_command" "ask" (Some []) None None).
  reflexivity.
Defined.

Lemma validateToolUse_throws_iff_witness :
  (Fixture.resolver "read_file" "ask" [] None None = true /\
   validateToolUse Fixture.resolver "read_file" "ask" None None None = Normal tt) /\
  (Fixture.resolver "execute_command" "ask" [] None None = false /\
   exists! e,
     validateToolUse Fixture.resolver "execute_command" "ask" None None None = Throw e).
Proof.
  split; (split; [reflexivity|]).
  - apply (validateToolUse_throws_iff Fixture.resolver "read_file" "ask" None None None).
    reflexivity.
  - apply (validateToolUse_throws_iff Fixture.resolver "execute_command" "ask" None None None).
    reflexivity.
Defined.

(** C3 fails on the code: in mode [ask] the registry refuses
    [execute_command], and what the gate throws has neither a [toolName] nor
    a [mode] property. *)
Lemma validateToolUse_no_structured_fields :
  Fixture.resolver "execute_command" "ask" [] None None = false /\
  ~ (exists e,
        validateToolUse Fixture.resolver "execute_command" "ask" (Some []) None None
          = Throw e /\
        get e "toolName" = Str "execute_command" /\
        get e "mode" = Str "ask").
Proof.
  split; [reflexivity|].
  intros (e & Hthrow & Htool & _).
  injection Hthrow as <-.
  discriminate Htool.
Qed.

Lemma validateToolUse_denial_is_plain_Error_witness :
  exists e,
    validateToolUse Fixture.resolver "execute_command" "ask" (Some []) None None = Throw e /\
    get e "name" = Str "Error" /\
    get e "message" = Str (denialMessage "execute_command" "ask") /\
    dom (own e) = {[ "message" ]} /\
    get e "toolName" = Undefined /\
    get e "mode" = Undefined.
Proof.
  apply (validateToolUse_denial_is_plain_Error
           Fixture.resolver "execute_command" "ask" (Some []) None None).
  reflexivity.
Defined.

Lemma validateToolUse_omitted_records_witness :
  validateToolUse Fixture.resolver "execute_command" "code" None None None =
  validateToolUse Fixture.resolver "execute_command" "code" None (Some ∅) (Some ∅).
Proof.
  apply (validateToolUse_omitted_records Fixture.resolver "execute_command" "code" None).
  split; intros; reflexivity.
Defined.

Lemma validateToolUse_ask_scenario_witness :
  (exists e,
      validateToolUse Fixture.resolver "execute_command" "ask" (Some []) None None
        = Throw e /\
      get e "message" =
        Str ("Tool " +:+ dquote +:+ "execute_command" +:+ dquote +:+
             " is not allowed in ask mode.")) /\
  validateToolUse Fixture.resolver "read_file" "ask" (Some []) None None = Normal tt.
Proof.
  apply (validateToolUse_ask_scenario Fixture.resolver); reflexivity.
Defined.

(** * The gate leaves the heap alone *)

Section HeapFacts.

Context {ModeConfig Unknown : Type}.
Implicit Types (h : gmap Heap.loc (Heap.Cell ModeConfig Unknown)) (l : Heap.loc).

Lemma lookup_fresh h : h !! fresh (dom h) = None.
Proof. apply not_elem_of_dom, is_fresh. Qed.

Lemma alloc_fresh c h : h !! (Heap.alloc c h).1 = None.
Proof. apply lookup_fresh. Qed.

Lemma alloc_extends c h : h ⊆ (Heap.alloc c h).2.
Proof. apply insert_subseteq, (alloc_fresh c). Qed.

(** Allocating the empty array changes no argument read back as a value. *)
Lemma readMode_alloc h l :
  Heap.readMode (Heap.alloc (Heap.ModeArray []) h).2 l = Heap.readMode h l.
Proof.
  unfold Heap.readMode; simpl.
  destruct (decide (l = fresh (dom h))) as [->|Hne].
  - rewrite lookup_insert_eq.
    now rewrite lookup_fresh.
  - now rewrite lookup_insert_ne.
Qed.

Lemma readRequirements_alloc h l :
  Heap.readRequirements (Heap.alloc (Heap.ModeArray []) h).2 l =
  Heap.readRequirements h l.
Proof.
  unfold Heap.readRequirements; simpl.
  destruct (decide (l = fresh (dom h))) as [->|Hne].
  - rewrite lookup_insert_eq.
    now rewrite lookup_fresh.
  - now rewrite lookup_insert_ne.
Qed.

Lemma readParams_alloc h l :
  Heap.readParams (Heap.alloc (Heap.ModeArray []) h).2 l = Heap.readParams h l.
Proof.
  unfold Heap.readParams; simpl.
  destruct (decide (l = fresh (dom h))) as [->|Hne].
  - rewrite lookup_insert_eq.
    now rewrite lookup_fresh.
  - now rewrite lookup_insert_ne.
Qed.

Lemma readModes_alloc h l :
  Heap.readModes (Heap.alloc (Heap.ModeArray []) h).2 l = Heap.readModes h l.
Proof.
  unfold Heap.readModes.
  destruct (decide (l = fresh (dom h))) as [->|Hne].
  - simpl. rewrite lookup_insert_eq.
    now rewrite lookup_fresh.
  - simpl. rewrite lookup_insert_ne by congruence.
    destruct (h !! l) as [[items| | |]|]; try reflexivity.
    apply list_omap_ext, Forall2_same_length_lookup_2; [reflexivity|].
    intros i x y Hx Hy.
    replace y with x by congruence.
    apply readMode_alloc.
Qed.

(** The array the gate passes on when [customModes] is left out reads back
    as the empty list. *)
Lemma readModes_fresh_array h :
  Heap.readModes (<[fresh (dom h) := Heap.ModeArray []]> h) (fresh (dom h)) = [].
Proof.
  unfold Heap.readModes; simpl.
  now rewrite lookup_insert_eq.
Qed.

Lemma lift_readOnly (r : Resolver ModeConfig Unknown) : Heap.readOnly (Heap.lift r).
Proof. intros toolName mode customModes toolRequirements toolParams h. reflexivity. Qed.

Variable isToolAllowedForMode : Heap.HeapResolver ModeConfig Unknown.

(** The heap after a call is the heap the resolver hands back; the gate
    itself writes nothing but the fresh array. *)
Lemma validateToolUse_heap toolName mode customModes toolRequirements toolParams h :
  (Heap.validateToolUse isToolAllowedForMode
     toolName mode customModes toolRequirements toolParams h).2 =
  match customModes with
  | Some l => (isToolAllowedForMode toolName mode l toolRequirements toolParams h).2
  | None =>
      let '(l, h1) := Heap.alloc (Heap.ModeArray []) h in
      (isToolAllowedForMode toolName mode l toolRequirements toolParams h1).2
  end.
Proof.
  unfold Heap.validateToolUse.
  destruct customModes as [l|]; simpl.
  - destruct (isToolAllowedForMode _ _ _ _ _ _) as [[] h2]; reflexivity.
  - destruct (isToolAllowedForMode _ _ _ _ _ _) as [[] h2]; reflexivity.
Qed.

(** C7. With a resolver that does not write, a call leaves every cell that
    existed before it as it was, so the [customModes] array, each mode in
    it, the requirements and the parameters read back as before, whether the
    call returns or throws; when [customModes] is supplied the heap is not
    changed at all. *)
Theorem validateToolUse_frame toolName mode customModes toolRequirements toolParams h :
  Heap.readOnly isToolAllowedForMode ->
  let h' := (Heap.validateToolUse isToolAllowedForMode
               toolName mode customModes toolRequirements toolParams h).2 in
  (forall l c, h !! l = Some c -> h' !! l = Some c) /\
  (forall l, Heap.readModes h' l = Heap.readModes h l /\
             Heap.readMode h' l = Heap.readMode h l /\
             Heap.readRequirements h' l = Heap.readRequirements h l /\
             Heap.readParams h' l = Heap.readParams h l) /\
  (is_Some customModes -> h' = h).
Proof.
  intros Hread h'.
  assert (Hh' : h' = match customModes with
                     | Some _ => h
                     | None => (Heap.alloc (Heap.ModeArray []) h).2
                     end).
  { subst h'. rewrite validateToolUse_heap.
    destruct customModes as [l|]; [apply Hread|].
    simpl. apply Hread. }
  clearbody h'. subst h'.
  destruct customModes as [arr|].
  - repeat split; auto.
  - split; [|split].
    + intros l c Hl.
      pose proof (alloc_extends (Heap.ModeArray []) h) as Hsub.
      rewrite map_subseteq_spec in Hsub. now apply Hsub.
    + intros l.
      rewrite readModes_alloc, readMode_alloc, readRequirements_alloc, readParams_alloc.
      repeat split.
    + intros [x Hx]. discriminate Hx.
Qed.

End HeapFacts.

(** Over a resolver that only reads, the outcome of the gate on the heap is
    the outcome of [validateToolUse] on the arguments read back as values. *)
Lemma validateToolUse_lift {ModeConfig Unknown : Type}
    (r : Resolver ModeConfig Unknown)
    toolName mode customModes toolRequirements toolParams
    (h : gmap Heap.loc (Heap.Cell ModeConfig Unknown)) :
  (Heap.validateToolUse (Heap.lift r)
     toolName mode customModes toolRequirements toolParams h).1 =
  validateToolUse r toolName mode (Heap.readModes h <$> customModes)
    (toolRequirements ≫= Heap.readRequirements h)
    (toolParams ≫= Heap.readParams h).
Proof.
  unfold Heap.validateToolUse, Heap.lift, validateToolUse.
  destruct customModes as [arr|]; simpl.
  - now destruct (r _ _ _ _ _).
  - rewrite (readModes_fresh_array h).
    replace (toolRequirements ≫= Heap.readRequirements (<[fresh (dom h):=Heap.ModeArray []]> h))
      with (toolRequirements ≫= Heap.readRequirements h)
      by (destruct toolRequirements; simpl;
          [symmetry; apply readRequirements_alloc | reflexivity]).
    replace (toolParams ≫= Heap.readParams (<[fresh (dom h):=Heap.ModeArray []]> h))
      with (toolParams ≫= Heap.readParams h)
      by (destruct toolParams; simpl;
          [symmetry; apply readParams_alloc | reflexivity]).
    now destruct (r _ _ _ _ _).
Qed.

(** The gate consults its resolver and nothing else: two resolvers that
    answer alike give the same call. *)
Lemma validateToolUse_resolver_ext {ModeConfig Unknown : Type}
    (rs rs' : Heap.HeapResolver ModeConfig Unknown)
    toolName mode customModes toolRequirements toolParams
    (h : gmap Heap.loc (Heap.Cell ModeConfig Unknown)) :
  (forall toolName mode l tr tp h, rs toolName mode l tr tp h = rs' toolName mode l tr tp h) ->
  Heap.validateToolUse rs toolName mode customModes toolRequirements toolParams h =
  Heap.validateToolUse rs' toolName mode customModes toolRequirements toolParams h.
Proof.
  intros Hext. unfold Heap.validateToolUse.
  destruct customModes as [l|]; simpl; now rewrite Hext.
Qed.

(** The heap a call over a reading resolver leaves behind. *)
Lemma validateToolUse_lift_heap {ModeConfig Unknown : Type}
    (r : Resolver ModeConfig Unknown)
    toolName mode customModes toolRequirements toolParams
    (h : gmap Heap.loc (Heap.Cell ModeConfig Unknown)) :
  (Heap.validateToolUse (Heap.lift r)
     toolName mode customModes toolRequirements toolParams h).2 =
  match customModes with
  | Some _ => h
  | None => (Heap.alloc (Heap.ModeArray []) h).2
  end.
Proof.
  rewrite validateToolUse_heap.
  now destruct customModes.
Qed.

(** C4. The decision is a function of the values of the five arguments and
    of nothing else.  Let the resolver be a predicate on values.  Then a
    call made in any heap has the outcome that [validateToolUse] computes
    from the values its arguments hold; so two calls whose arguments hold
    the same values, made in whatever heaps and through whatever
    references, both return or both throw an [Error] with one and the same
    message, and so does a call repeated in the heap the first call left. *)
Theorem validateToolUse_pure_decision {ModeConfig Unknown : Type}
    (r : Resolver ModeConfig Unknown)
    (rs : Heap.HeapResolver ModeConfig Unknown)
    (toolName : ToolName) (mode : Mode)
    (customModes1 toolRequirements1 toolParams1 : option Heap.loc)
    (h1 : gmap Heap.loc (Heap.Cell ModeConfig Unknown))
    (customModes2 toolRequirements2 toolParams2 : option Heap.loc)
    (h2 : gmap Heap.loc (Heap.Cell ModeConfig Unknown)) :
  (forall toolName mode l tr tp h,
      rs toolName mode l tr tp h = Heap.lift r toolName mode l tr tp h) ->
  Heap.readModes h1 <$> customModes1 = Heap.readModes h2 <$> customModes2 ->
  toolRequirements1 ≫= Heap.readRequirements h1 =
    toolRequirements2 ≫= Heap.readRequirements h2 ->
  toolParams1 ≫= Heap.readParams h1 = toolParams2 ≫= Heap.readParams h2 ->
  let first :=
    Heap.validateToolUse rs toolName mode customModes1 toolRequirements1 toolParams1 h1 in
  let second :=
    Heap.validateToolUse rs toolName mode customModes2 toolRequirements2 toolParams2 h2 in
  let again :=
    Heap.validateToolUse rs toolName mode customModes1 toolRequirements1 toolParams1
      first.2 in
  first.1 =
    (if r toolName mode ((Heap.readModes h1 <$> customModes1) ?? [])
          (toolRequirements1 ≫= Heap.readRequirements h1)
          (toolParams1 ≫= Heap.readParams h1)
     then Normal tt
     else Throw (new_Error (denialMessage toolName mode))) /\
  second.1 = first.1 /\
  again.1 = first.1 /\
  ((first.1 = Normal tt /\ second.1 = Normal tt /\ again.1 = Normal tt) \/
   (exists msg, first.1 = Throw (new_Error msg) /\
                second.1 = Throw (new_Error msg) /\
                again.1 = Throw (new_Error msg))).
Proof.
  intros Hrs Hmodes Hreq Hpar first second again.
  assert (Hfirst : first.1 =
            validateToolUse r toolName mode (Heap.readModes h1 <$> customModes1)
              (toolRequirements1 ≫= Heap.readRequirements h1)
              (toolParams1 ≫= Heap.readParams h1)).
  { subst first. rewrite (validateToolUse_resolver_ext rs (Heap.lift r)) by exact Hrs.
    apply validateToolUse_lift. }
  rewrite validateToolUse_unfold in Hfirst.
  assert (Hsecond : second.1 = first.1).
  { rewrite Hfirst. subst second.
    rewrite (validateToolUse_resolver_ext rs (Heap.lift r)) by exact Hrs.
    rewrite validateToolUse_lift, validateToolUse_unfold.
    now rewrite Hmodes, Hreq, Hpar. }
  assert (Hagain : again.1 = first.1).
  { rewrite Hfirst. subst again first.
    rewrite !(validateToolUse_resolver_ext rs (Heap.lift r)) by exact Hrs.
    rewrite validateToolUse_lift, validateToolUse_lift_heap, validateToolUse_unfold.
    destruct customModes1 as [l|]; [reflexivity|].
    assert (Hr : toolRequirements1 ≫= Heap.readRequirements (Heap.alloc (Heap.ModeArray []) h1).2
                 = toolRequirements1 ≫= Heap.readRequirements h1).
    { destruct toolRequirements1 as [l|]; [|reflexivity].
      apply readRequirements_alloc. }
    assert (Hp : toolParams1 ≫= Heap.readParams (Heap.alloc (Heap.ModeArray []) h1).2
                 = toolParams1 ≫= Heap.readParams h1).
    { destruct toolParams1 as [l|]; [|reflexivity].
      apply readParams_alloc. }
    now rewrite Hr, Hp. }
  split; [exact Hfirst|]. split; [exact Hsecond|]. split; [exact Hagain|].
  rewrite Hsecond, Hagain, Hfirst.
  destruct (r _ _ _ _ _).
  - left. repeat split.
  - right. eexists. repeat split.
Qed.

Lemma validateToolUse_pure_decision_witness :
  let h2 : gmap Heap.loc (Heap.Cell Fixture.ModeConfig string) :=
    {[ 7%positive := Heap.Requirements {[ "execute_command" := false ]} ]} in
  let first :=
    Heap.validateToolUse (Heap.lift Fixture.resolver) "execute_command" "code"
      None (Some 3%positive) None Fixture.heap in
  let second :=
    Heap.validateToolUse (Heap.lift Fixture.resolver) "execute_command" "code"
      None (Some 7%positive) None h2 in
  let again :=
    Heap.validateToolUse (Heap.lift Fixture.resolver) "execute_command" "code"
      None (Some 3%positive) None first.2 in
  first.1 = Throw (new_Error (denialMessage "execute_command" "code")) /\
  second.1 = first.1 /\
  again.1 = first.1.
Proof.
  intros h2 first second again.
  destruct (validateToolUse_pure_decision Fixture.resolver (Heap.lift Fixture.resolver)
              "execute_command" "code"
              None (Some 3%positive) None Fixture.heap
              None (Some 7%positive) None h2)
    as (Hfirst & Hsecond & Hagain & _).
  - intros toolName mode l tr tp h. reflexivity.
  - reflexivity.
  - vm_compute. reflexivity.
  - reflexivity.
  - split; [|split].
    + exact Hfirst.
    + exact Hsecond.
    + exact Hagain.
Defined.

Lemma validateToolUse_frame_witness :
  Heap.readOnly (Heap.lift Fixture.resolver) /\
  let h' := (Heap.validateToolUse (Heap.lift Fixture.resolver)
               "execute_command" "docs" (Some 2%positive) (Some 3%positive)
               (Some 4%positive) Fixture.heap).2 in
  (forall l c, Fixture.heap !! l = Some c -> h' !! l = Some c) /\
  (forall l, Heap.readModes h' l = Heap.readModes Fixture.heap l /\
             Heap.readMode h' l = Heap.readMode Fixture.heap l /\
             Heap.readRequirements h' l = Heap.readRequirements Fixture.heap l /\
             Heap.readParams h' l = Heap.readParams Fixture.heap l) /\
  (is_Some (Some 2%positive) -> h' = Fixture.heap).
Proof.
  split.
  - intros toolName mode customModes toolRequirements toolParams h. reflexivity.
  - apply (validateToolUse_frame (Heap.lift Fixture.resolver)).
    intros toolName mode customModes toolRequirements toolParams h. reflexivity.
Defined.

(** On the sample heap, mode [docs] allows [read_file] but the requirement
    flag refuses [execute_command]. *)
Example validateToolUse_heap_sample :
  (Heap.validateToolUse (Heap.lift Fixture.resolver)
     "read_file" "docs" (Some 2%positive) (Some 3%positive) (Some 4%positive)
     Fixture.heap).1 = Normal tt /\
  (Heap.validateToolUse (Heap.lift Fixture.resolver)
     "execute_command" "code" None (Some 3%positive) None
     Fixture.heap).1 = Throw (new_Error (denialMessage "execute_command" "code")) /\
  (Heap.validateToolUse (Heap.lift Fixture.resolver)
     "execute_command" "code" None None None
     Fixture.heap).1 = Normal tt.
Proof. repeat split; vm_compute; reflexivity. Qed.

(** * Properties of the task-header title *)

Section TaskHeaderFacts.

Import TaskHeader.

Local Open Scope Z_scope.

Lemma length_append (s t : string) :
  String.length (s +:+ t) = (String.length s + String.length t)%nat.
Proof.
  induction s as [|a s IH]; simpl.
  - reflexivity.
  - now rewrite IH.
Qed.

Lemma substring_0_append (line rest : string) :
  String.substring 0 (String.length line) (line +:+ rest) = line.
Proof.
  induction line as [|a line IH]; simpl.
  - now destruct rest.
  - now rewrite IH.
Qed.

(** [substring(0, n)] of a text that starts with [n] characters of [line]. *)
Lemma substring_prefix (line rest : string) :
  substring (line +:+ rest) 0 (Z.of_nat (String.length line)) = line.
Proof.
  unfold substring, clamp.
  rewrite length_append, Nat2Z.inj_add.
  set (n := Z.of_nat (String.length line)).
  set (k := Z.of_nat (String.length rest)).
  assert (0 <= n) by apply Nat2Z.is_nonneg.
  assert (0 <= k) by apply Nat2Z.is_nonneg.
  replace (Z.min (Z.max 0 0) (n + k)) with 0 by lia.
  replace (Z.min (Z.max n 0) (n + k)) with n by lia.
  replace (Z.min 0 n) with 0 by lia.
  replace (Z.max 0 n - 0) with n by lia.
  subst n. rewrite Nat2Z.id. simpl Z.to_nat.
  apply substring_0_append.
Qed.

Lemma not_hasNewline_empty : ~ hasNewline EmptyString.
Proof. intros ([|a before] & after & H); discriminate H. Qed.

Lemma hasNewline_here (s : string) : hasNewline (newline +:+ s).
Proof. exists EmptyString, s. reflexivity. Qed.

Lemma hasNewline_later (a : Ascii.ascii) (s : string) :
  hasNewline s -> hasNewline (String a s).
Proof.
  intros (before & after & ->).
  exists (String a before), after. reflexivity.
Qed.

Lemma hasNewline_tail (a : Ascii.ascii) (s : string) :
  a <> Ascii.ascii_of_nat 10 -> hasNewline (String a s) -> hasNewline s.
Proof.
  intros Ha ([|b before] & after & H); simpl in H.
  - injection H as H _. contradiction.
  - injection H as _ H. now exists before, after.
Qed.

Lemma indexOfFrom_newline_cons (a : Ascii.ascii) (s : string) (i : Z) :
  indexOfFrom (String a s) newline i =
  if Ascii.ascii_dec (Ascii.ascii_of_nat 10) a then i
  else indexOfFrom s newline (i + 1).
Proof.
  change (indexOfFrom (String a s) newline i)
    with (if match Ascii.ascii_dec (Ascii.ascii_of_nat 10) a with
             | left _ => String.prefix EmptyString s
             | right _ => false
             end
          then i else indexOfFrom s newline (i + 1)).
  destruct (Ascii.ascii_dec (Ascii.ascii_of_nat 10) a); [|reflexivity].
  now destruct s.
Qed.

(** [indexOf] for the newline: either there is none and the answer is
    [-1], or the answer is the length of the text before the first one. *)
Lemma indexOfFrom_newline (s : string) (i : Z) :
  (indexOfFrom s newline i = -1 /\ ~ hasNewline s) \/
  (exists line after,
      s = line +:+ newline +:+ after /\ ~ hasNewline line /\
      indexOfFrom s newline i = i + Z.of_nat (String.length line)) \/
  i < 0.
Proof.
  revert i.
  induction s as [|a s IH]; intros i.
  - left. split; [reflexivity | apply not_hasNewline_empty].
  - destruct (Z_lt_dec i 0) as [Hneg|Hpos]; [right; right; exact Hneg|].
    rewrite indexOfFrom_newline_cons.
    destruct (Ascii.ascii_dec (Ascii.ascii_of_nat 10) a) as [<-|Hne].
    + right; left. exists EmptyString, s.
      split; [reflexivity|].
      split; [apply not_hasNewline_empty|].
      simpl String.length. lia.
    + destruct (IH (i + 1)) as [[Hidx Hnone] | [(line & after & -> & Hline & Hidx) | Hneg]].
      * left. split; [exact Hidx|].
        intros Hcontra. apply Hnone.
        apply (hasNewline_tail a); [congruence | exact Hcontra].
      * right; left. exists (String a line), after.
        split; [reflexivity|].
        split.
        -- intros Hcontra. apply Hline.
           apply (hasNewline_tail a); [congruence | exact Hcontra].
        -- rewrite Hidx. simpl String.length. lia.
      * lia.
Qed.

Lemma indexOf_newline (s : string) :
  (indexOf s newline = -1 /\ ~ hasNewline s) \/
  (exists line after,
      s = line +:+ newline +:+ after /\ ~ hasNewline line /\
      indexOf s newline = Z.of_nat (String.length line)).
Proof.
  unfold indexOf.
  destruct (indexOfFrom_newline s 0) as [H | [(line & after & Hs & Hline & Hidx) | H]].
  - left. exact H.
  - right. exists line, after. now rewrite Hidx.
  - lia.
Qed.

Lemma hasNewline_append (line after : string) :
  hasNewline (line +:+ newline +:+ after).
Proof. now exists line, after. Qed.

(** The text before the first newline is determined by the text. *)
Lemma beforeFirstNewline_unique (s line line' : string) :
  beforeFirstNewline s line -> beforeFirstNewline s line' -> line = line'.
Proof.
  intros [[after ->] Hline] [[after' Heq] Hline'].
  revert line' Heq Hline Hline'.
  induction line as [|a line IH]; intros [|b line'] Heq Hline Hline'.
  - reflexivity.
  - simpl in Heq. injection Heq as <- _.
    exfalso. apply Hline'. apply (hasNewline_here line').
  - simpl in Heq. injection Heq as -> _.
    exfalso. apply Hline. apply (hasNewline_here line).
  - simpl in Heq. injection Heq as -> Heq.
    f_equal. apply IH; [exact Heq | |].
    + intros H. apply Hline. now apply hasNewline_later.
    + intros H. apply Hline'. now apply hasNewline_later.
Qed.

(** The title of a task whose text is not empty. *)
Lemma firstLineOfTask_text (t : ClineMessage) (a : Ascii.ascii) (s : string) :
  text t = Some (String a s) ->
  firstLineOfTask (Some t) =
  if indexOf (String a s) newline =? -1 then String a s
  else substring (String a s) 0 (indexOf (String a s) newline).
Proof. intros Ht. unfold firstLineOfTask. rewrite Ht. reflexivity. Qed.

(** C10. The title is empty when the task or its text is absent or empty;
    it is the whole text when the text has no newline character; otherwise
    it is the part of the text strictly before the first newline. *)
Theorem firstLineOfTask_spec (task : option ClineMessage) :
  (task = None \/
   (exists t, task = Some t /\ (text t = None \/ text t = Some EmptyString)) ->
   firstLineOfTask task = EmptyString) /\
  (forall t s, task = Some t -> text t = Some s -> ~ hasNewline s ->
               firstLineOfTask task = s) /\
  (forall t s, task = Some t -> text t = Some s -> hasNewline s ->
               beforeFirstNewline s (firstLineOfTask task)).
Proof.
  split; [|split].
  - intros [-> | (t & -> & [Ht | Ht])].
    + reflexivity.
    + unfold firstLineOfTask. now rewrite Ht.
    + unfold firstLineOfTask. now rewrite Ht.
  - intros t s -> Ht Hnone.
    destruct s as [|a s].
    + unfold firstLineOfTask. now rewrite Ht.
    + rewrite (firstLineOfTask_text t a s Ht).
      destruct (indexOf_newline (String a s))
        as [[Hidx _] | (line & after & Hs & _ & _)].
      * now rewrite Hidx.
      * exfalso. apply Hnone. rewrite Hs. apply hasNewline_append.
  - intros t s -> Ht Hsome.
    destruct s as [|a s].
    + exfalso. now apply not_hasNewline_empty.
    + rewrite (firstLineOfTask_text t a s Ht).
      destruct (indexOf_newline (String a s))
        as [[_ Hnone] | (line & after & Hs & Hline & Hidx)].
      * contradiction.
      * rewrite Hidx.
        destruct (Z.eqb_spec (Z.of_nat (String.length line)) (-1)) as [Habs|_];
          [lia|].
        rewrite Hs, substring_prefix.
        split; [now exists after | exact Hline].
Qed.

End TaskHeaderFacts.

(** The title on sample tasks. *)
Example firstLineOfTask_samples :
  TaskHeader.firstLineOfTask None = EmptyString /\
  TaskHeader.firstLineOfTask (Some (TaskHeader.mkClineMessage None None)) = EmptyString /\
  TaskHeader.firstLineOfTask
    (Some (TaskHeader.mkClineMessage (Some "Fix the login bug") None)) =
    "Fix the login bug" /\
  TaskHeader.firstLineOfTask
    (Some (TaskHeader.mkClineMessage
             (Some ("Fix the login bug" +:+ TaskHeader.newline +:+
                    "Steps:" +:+ TaskHeader.newline +:+ "1. open the page"))
             None)) = "Fix the login bug" /\
  TaskHeader.firstLineOfTask
    (Some (TaskHeader.mkClineMessage (Some (TaskHeader.newline +:+ "late")) None)) =
    EmptyString.
Proof. repeat split. Qed.

Lemma firstLineOfTask_spec_witness :
  let s := "Fix the login bug" +:+ TaskHeader.newline +:+ "Steps:" in
  let task := Some (TaskHeader.mkClineMessage (Some s) None) in
  TaskHeader.hasNewline s /\
  TaskHeader.beforeFirstNewline s (TaskHeader.firstLineOfTask task).
Proof.
  intros s task.
  assert (Hs : TaskHeader.hasNewline s)
    by (exists "Fix the login bug", "Steps:"; reflexivity).
  split; [exact Hs|].
  apply (proj2 (proj2 (firstLineOfTask_spec task))
           (TaskHeader.mkClineMessage (Some s) None) s);
    [reflexivity | reflexivity | exact Hs].
Defined.

(** * More on the task-header title *)

Section TitleFacts.

Import TaskHeader.

Lemma append_cons (x : Ascii.ascii) (a b : string) :
  String x a +:+ b = String x (a +:+ b).
Proof. reflexivity. Qed.

Lemma append_assoc (a b c : string) : (a +:+ b) +:+ c = a +:+ b +:+ c.
Proof.
  induction a as [|x a IH].
  - reflexivity.
  - now rewrite !append_cons, IH.
Qed.

Lemma append_empty_r (a : string) : a +:+ EmptyString = a.
Proof.
  induction a as [|x a IH].
  - reflexivity.
  - now rewrite append_cons, IH.
Qed.

(** A newline in a concatenation lies in one of the two parts. *)
Lemma hasNewline_split (a b : string) :
  hasNewline (a +:+ b) -> hasNewline a \/ hasNewline b.
Proof.
  induction a as [|x a IH]; simpl; intros H.
  - right. exact H.
  - destruct (Ascii.ascii_dec x (Ascii.ascii_of_nat 10)) as [->|Hx].
    + left. apply (hasNewline_here a).
    + apply hasNewline_tail in H; [|exact Hx].
      destruct (IH H) as [Ha|Hb]; [left|right; exact Hb].
      now apply hasNewline_later.
Qed.

(** The three ways the title comes about. *)
Lemma firstLineOfTask_cases (task : option ClineMessage) :
  (((task ≫= text) = None \/ (task ≫= text) = Some EmptyString) /\
   firstLineOfTask task = EmptyString) \/
  (exists s, (task ≫= text) = Some s /\ ~ hasNewline s /\ firstLineOfTask task = s) \/
  (exists line after,
      (task ≫= text) = Some (line +:+ newline +:+ after) /\ ~ hasNewline line /\
      firstLineOfTask task = line).
Proof.
  destruct task as [tk|]; [|left; split; [left|]; reflexivity].
  change (Some tk ≫= text) with (text tk).
  destruct (text tk) as [[|a s]|] eqn:Ht.
  - left. split; [right; reflexivity|].
    unfold firstLineOfTask. now rewrite Ht.
  - rewrite (firstLineOfTask_text tk a s Ht).
    destruct (indexOf_newline (String a s))
      as [[Hidx Hnone] | (line & after & Hs & Hline & Hidx)].
    + right; left. exists (String a s). rewrite Hidx. auto.
    + right; right. exists line, after.
      rewrite Hidx.
      destruct (Z.eqb_spec (Z.of_nat (String.length line)) (-1)) as [Habs|_]; [lia|].
      rewrite Hs at 2. rewrite substring_prefix. rewrite <- Hs. auto.
  - left. split; [left; reflexivity|].
    unfold firstLineOfTask. now rewrite Ht.
Qed.

(** X1. Whatever the task, the title holds no newline character: it is a
    single line. *)
Theorem firstLineOfTask_single_line (task : option ClineMessage) :
  ~ hasNewline (firstLineOfTask task).
Proof.
  destruct (firstLineOfTask_cases task)
    as [[_ ->] | [(s & _ & Hs & ->) | (line & after & _ & Hline & ->)]].
  - apply not_hasNewline_empty.
  - exact Hs.
  - exact Hline.
Qed.

(** X2. The title is an initial part of the task text, and what follows it
    in the text is either nothing or starts with a newline. *)
Theorem firstLineOfTask_prefix (task : option ClineMessage) (s : string) :
  (task ≫= text) = Some s ->
  exists rest,
    s = firstLineOfTask task +:+ rest /\
    (rest = EmptyString \/ exists after, rest = newline +:+ after).
Proof.
  intros Hs.
  destruct (firstLineOfTask_cases task)
    as [[[H|H] ->] | [(s' & H & _ & ->) | (line & after & H & _ & ->)]];
    rewrite Hs in H.
  - discriminate H.
  - injection H as ->. exists EmptyString. split; [reflexivity | now left].
  - injection H as ->. exists EmptyString.
    split; [now rewrite append_empty_r | now left].
  - injection H as ->. exists (newline +:+ after).
    split; [reflexivity | right; now exists after].
Qed.

(** X3. The title is empty exactly when there is no text, the text is
    empty, or the text begins with a newline. *)
Theorem firstLineOfTask_empty_iff (task : option ClineMessage) :
  firstLineOfTask task = EmptyString <->
  (task ≫= text) = None \/ (task ≫= text) = Some EmptyString \/
  exists after, (task ≫= text) = Some (newline +:+ after).
Proof.
  destruct (firstLineOfTask_cases task)
    as [[H ->] | [(s & H & Hs & ->) | (line & after & H & Hline & ->)]].
  - split; [intros _; tauto | reflexivity].
  - split.
    + intros ->. right; left. exact H.
    + intros [H' | [H' | [after H']]]; rewrite H in H'.
      * discriminate H'.
      * now injection H'.
      * injection H' as ->. exfalso. apply Hs, hasNewline_here.
  - split.
    + intros ->. right; right. exists after. exact H.
    + intros [H' | [H' | [after' H']]]; rewrite H in H'.
      * discriminate H'.
      * injection H' as H'. destruct line; discriminate H'.
      * injection H' as H'.
        destruct line as [|x line]; [reflexivity|].
        simpl in H'. injection H' as -> _.
        exfalso. apply Hline, (hasNewline_here line).
Qed.

(** X4. Taking the title of a task whose text is already a title changes
    nothing. *)
Theorem firstLineOfTask_idempotent (task : option ClineMessage)
    (images : option (list string)) :
  firstLineOfTask (Some (mkClineMessage (Some (firstLineOfTask task)) images)) =
  firstLineOfTask task.
Proof.
  pose proof (firstLineOfTask_single_line task) as Hline.
  set (title := firstLineOfTask task) in *.
  destruct (firstLineOfTask_cases (Some (mkClineMessage (Some title) images)))
    as [[[H|H] Heq] | [(s & H & _ & Heq) | (line & after & H & _ & Heq)]];
    simpl in H.
  - discriminate H.
  - injection H as H. now rewrite Heq.
  - injection H as <-. exact Heq.
  - injection H as H. exfalso. apply Hline. rewrite H. apply hasNewline_append.
Qed.

(** X5. Only the line feed ends the title: when the first line ends in a
    carriage return followed by a line feed, the carriage return stays in
    the title. *)
Theorem firstLineOfTask_keeps_carriage_return
    (tk : ClineMessage) (line after : string) :
  let cr := String (Ascii.ascii_of_nat 13) EmptyString in
  text tk = Some (line +:+ cr +:+ newline +:+ after) ->
  ~ hasNewline line ->
  firstLineOfTask (Some tk) = line +:+ cr.
Proof.
  intros cr Ht Hline.
  assert (Hcr : ~ hasNewline (line +:+ cr)).
  { intros H. apply hasNewline_split in H as [H|H]; [now apply Hline|].
    destruct H as ([|x before] & after' & H); [discriminate H|].
    injection H as _ H. destruct before; discriminate H. }
  assert (Hbefore : beforeFirstNewline (line +:+ cr +:+ newline +:+ after) (line +:+ cr)).
  { split; [|exact Hcr]. exists after. now rewrite append_assoc. }
  destruct (firstLineOfTask_cases (Some tk))
    as [[[H|H] Heq] | [(s & H & Hs & Heq) | (line' & after' & H & Hl & Heq)]];
    simpl in H; rewrite Ht in H.
  - discriminate H.
  - injection H as H. destruct line; discriminate H.
  - injection H as <-. exfalso. apply Hs.
    rewrite <- append_assoc. apply hasNewline_append.
  - injection H as H. rewrite Heq.
    symmetry. apply (beforeFirstNewline_unique (line +:+ cr +:+ newline +:+ after)).
    + exact Hbefore.
    + split; [|exact Hl]. exists after'. exact H.
Qed.

End TitleFacts.

(** * Reading a denial message back *)

Section DenialMessage.

Lemma append_inv_l (a b c : string) : a +:+ b = a +:+ c -> b = c.
Proof.
  induction a as [|x a IH]; intros H.
  - exact H.
  - rewrite !append_cons in H. injection H as H. now apply IH.
Qed.

Lemma append_inv_r (a b c : string) : a +:+ c = b +:+ c -> a = b.
Proof.
  revert b.
  induction a as [|x a IH]; intros [|y b] H.
  - reflexivity.
  - exfalso. apply (f_equal String.length) in H.
    rewrite !length_append in H. simpl in H. lia.
  - exfalso. apply (f_equal String.length) in H.
    rewrite !length_append in H. simpl in H. lia.
  - rewrite !append_cons in H. injection H as -> H.
    f_equal. now apply IH.
Qed.

Lemma hasQuote_here (s : string) : hasQuote (dquote +:+ s).
Proof. exists EmptyString, s. reflexivity. Qed.

Lemma hasQuote_later (x : Ascii.ascii) (s : string) :
  hasQuote s -> hasQuote (String x s).
Proof.
  intros (before & after & ->).
  exists (String x before), after. reflexivity.
Qed.

(** A text is cut at its first double quote in one way only. *)
Lemma first_quote_unique (a a' b b' : string) :
  ~ hasQuote a -> ~ hasQuote a' ->
  a +:+ dquote +:+ b = a' +:+ dquote +:+ b' ->
  a = a' /\ b = b'.
Proof.
  revert a'.
  induction a as [|x a IH]; intros [|y a'] Ha Ha' H.
  - injection H as H. split; [reflexivity | exact H].
  - exfalso. rewrite append_cons in H. injection H as <- _.
    apply Ha', (hasQuote_here a').
  - exfalso. rewrite append_cons in H. injection H as -> _.
    apply Ha, (hasQuote_here a).
  - rewrite !append_cons in H. injection H as -> H.
    destruct (IH a') as [-> ->]; [| |exact H|split; reflexivity].
    + intros Hq. now apply Ha, hasQuote_later.
    + intros Hq. now apply Ha', hasQuote_later.
Qed.

(** X6. A denial message names one tool and one mode: two messages for tool
    names without a double quote are equal only if the tool names are equal
    and the modes are equal. *)
Theorem denialMessage_injective (toolName toolName' : ToolName) (mode mode' : Mode) :
  ~ hasQuote toolName -> ~ hasQuote toolName' ->
  denialMessage toolName mode = denialMessage toolName' mode' ->
  toolName = toolName' /\ mode = mode'.
Proof.
  intros Hq Hq' H.
  unfold denialMessage in H.
  apply append_inv_l, append_inv_l in H.
  apply first_quote_unique in H as [-> H]; [|exact Hq|exact Hq'].
  split; [reflexivity|].
  apply append_inv_l in H.
  now apply append_inv_r in H.
Qed.

End DenialMessage.

(** * Properties of the rendered header *)

Section ViewFacts.

Import Num TaskHeader View.

Context {ApiConfiguration HistoryItem ModelInfo MaxTokens : Type}.

Abbreviation Node := (@Node HistoryItem MaxTokens).
Abbreviation Imports := (@Imports ApiConfiguration ModelInfo MaxTokens).
Abbreviation Hooks := (@Hooks ApiConfiguration HistoryItem ModelInfo).

Implicit Types (n : Node) (type : string).

Lemma nodes_Element type props (children : list Node) :
  nodes (Element type props children) =
  Element type props children :: flat_map nodes children.
Proof. reflexivity. Qed.

Lemma filter_flat_map {A B : Type} (p : B -> bool) (f : A -> list B) (l : list A) :
  List.filter p (flat_map f l) = flat_map (fun a => List.filter p (f a)) l.
Proof.
  induction l as [|a l IH]; simpl; [reflexivity|].
  now rewrite List.filter_app, IH.
Qed.

Lemma elements_Null type : elements type (Null : Node) = [].
Proof. reflexivity. Qed.

Lemma elements_Text type s : elements type (Text s : Node) = [].
Proof. reflexivity. Qed.

(** The elements of a type below an element of another type are those of
    its children. *)
Lemma elements_other type type' props (children : list Node) :
  String.eqb type type' = false ->
  elements type (Element type' props children) =
  flat_map (elements type) children.
Proof.
  intros Hne. unfold elements.
  rewrite nodes_Element. simpl List.filter. rewrite Hne.
  apply filter_flat_map.
Qed.

Lemma elements_same type props (children : list Node) :
  elements type (Element type props children) =
  Element type props children :: flat_map (elements type) children.
Proof.
  unfold elements.
  rewrite nodes_Element. simpl List.filter. rewrite String.eqb_refl.
  f_equal. apply filter_flat_map.
Qed.

Lemma elements_when type (c : bool) n :
  elements type (when c n) = if c then elements type n else [].
Proof. now destruct c. Qed.

Variable imports : Imports.

Ltac tree_step :=
  first [ rewrite elements_same
        | rewrite elements_other by (assumption || reflexivity)
        | rewrite elements_when
        | rewrite elements_Null
        | rewrite elements_Text ];
  cbn [flat_map].
Ltac tree := repeat tree_step.
Ltac split_gt :=
  repeat match goal with |- context [gt ?a ?b] => destruct (gt a b) end.
(** *** What the helper components contain *)

Lemma not_in_eqb type (l : list string) (x : string) :
  type ∉ l -> x ∈ l -> String.eqb type x = false.
Proof. intros Hn Hx. apply String.eqb_neq. intros ->. contradiction. Qed.

Lemma elements_TokenUsage type t (i o : option Number) :
  type ∉ ["div"; "span"; "i"] ->
  elements type (TaskHeaderTokenUsageDisplay imports t i o : Node) = [].
Proof.
  intros H.
  pose proof (not_in_eqb type _ "div" H ltac:(compute_done)).
  pose proof (not_in_eqb type _ "span" H ltac:(compute_done)).
  pose proof (not_in_eqb type _ "i" H ltac:(compute_done)).
  unfold TaskHeaderTokenUsageDisplay, whenPositive.
  destruct i as [x|], o as [y|]; tree; split_gt; tree; reflexivity.
Qed.

Lemma elements_ApiCost type t (cost : Number) :
  type ∉ ["div"; "span"] ->
  elements type (TaskHeaderApiCostDisplay imports t cost : Node) = [].
Proof.
  intros H.
  pose proof (not_in_eqb type _ "div" H ltac:(compute_done)).
  pose proof (not_in_eqb type _ "span" H ltac:(compute_done)).
  unfold TaskHeaderApiCostDisplay.
  destruct (truthy cost); simpl negb; cbv iota; tree; reflexivity.
Qed.

Lemma elements_CacheInfo type t (s : bool) (w r : option Number) :
  type ∉ ["div"; "span"; "CloudUpload"; "CloudDownload"] ->
  elements type (TaskHeaderCacheInfoDisplay imports t s w r : Node) = [].
Proof.
  intros H.
  pose proof (not_in_eqb type _ "div" H ltac:(compute_done)).
  pose proof (not_in_eqb type _ "span" H ltac:(compute_done)).
  pose proof (not_in_eqb type _ "CloudUpload" H ltac:(compute_done)).
  pose proof (not_in_eqb type _ "CloudDownload" H ltac:(compute_done)).
  unfold TaskHeaderCacheInfoDisplay, whenPositive, isPositiveNumber.
  destruct s, w as [x|], r as [y|]; split_gt; simpl orb; simpl negb; cbv iota;
    tree; reflexivity.
Qed.

Lemma elements_ContextDisplay type t (ww cw ct : Number) m a :
  type ∉ ["div"; "span"; "ContextWindowProgress"] ->
  elements type (TaskHeaderContextDisplay imports t ww cw ct m a : Node) = [].
Proof.
  intros H.
  pose proof (not_in_eqb type _ "div" H ltac:(compute_done)).
  pose proof (not_in_eqb type _ "span" H ltac:(compute_done)).
  pose proof (not_in_eqb type _ "ContextWindowProgress" H ltac:(compute_done)).
  unfold TaskHeaderContextDisplay.
  tree; reflexivity.
Qed.

(** *** The imported components in the header *)

(** Where [TaskActions] is rendered. *)
Lemma rendered_TaskActions (props : TaskHeaderProps) (hooks : Hooks) :
  rendered "TaskActions" (TaskHeader imports props hooks) =
  if isTaskExpanded hooks then
    match task props with
    | Some _ => [Element "TaskActions" [("item", PItem (currentTaskItem hooks))] []]
    | None => []
    end
  else if gt (or_undefined (model hooks ≫= contextWindowOf imports) (of_Z 1)) (of_Z 0)
       then [Element "TaskActions" [("item", PItem (currentTaskItem hooks))] []]
       else [].
Proof.
  unfold TaskHeader.
  destruct (isTaskExpanded hooks); [destruct (task props) as [tk|]; [|reflexivity]|];
    unfold rendered; cbv zeta.
  - destruct (images tk) as [[|i l]|]; tree;
      rewrite ?elements_TokenUsage, ?elements_ApiCost, ?elements_CacheInfo,
        ?elements_ContextDisplay by compute_done;
      destruct (truthy (totalCost props)); split_gt; reflexivity.
  - tree.
    rewrite ?elements_TokenUsage, ?elements_ApiCost, ?elements_CacheInfo,
      ?elements_ContextDisplay by compute_done.
    destruct (truthy (totalCost props)), (doesModelSupportPromptCache props),
      (isPositiveNumber (cacheReads props)); split_gt; reflexivity.
Qed.

Lemma elements_ContextDisplay_progress t (ww cw ct : Number) m a :
  elements "ContextWindowProgress"
    (TaskHeaderContextDisplay imports t ww cw ct m a : Node) =
  [Element "ContextWindowProgress"
     [("contextWindow", PNumber cw);
      ("contextTokens", PNumber (Num.or ct (of_Z 0)));
      ("maxTokens", PMaxTokens (getMaxTokensForModel imports m a))] []].
Proof. unfold TaskHeaderContextDisplay. tree. reflexivity. Qed.

(** Where [ContextWindowProgress] is rendered, and with which props. *)
Lemma rendered_progress (props : TaskHeaderProps) (hooks : Hooks) :
  rendered "ContextWindowProgress" (TaskHeader imports props hooks) =
  if isTaskExpanded hooks && bool_decide (task props = None) then []
  else if gt (or_undefined (model hooks ≫= contextWindowOf imports) (of_Z 1)) (of_Z 0)
  then [Element "ContextWindowProgress"
          [("contextWindow",
            PNumber (or_undefined (model hooks ≫= contextWindowOf imports) (of_Z 1)));
           ("contextTokens", PNumber (Num.or (contextTokens props) (of_Z 0)));
           ("maxTokens",
            PMaxTokens (getMaxTokensForModel imports (model hooks)
                          (apiConfiguration hooks)))] []]
  else [].
Proof.
  unfold TaskHeader.
  destruct (isTaskExpanded hooks); [destruct (task props) as [tk|]; [|reflexivity]|];
    unfold rendered; cbv zeta.
  - destruct (images tk) as [[|i l]|]; tree;
      rewrite ?elements_TokenUsage, ?elements_ApiCost, ?elements_CacheInfo,
        ?elements_ContextDisplay_progress by compute_done;
      destruct (truthy (totalCost props)); split_gt; reflexivity.
  - tree.
    rewrite ?elements_TokenUsage, ?elements_ApiCost, ?elements_CacheInfo,
      ?elements_ContextDisplay_progress by compute_done.
    destruct (truthy (totalCost props)), (doesModelSupportPromptCache props),
      (isPositiveNumber (cacheReads props)); split_gt; reflexivity.
Qed.

Lemma rendered_progress_node (props : TaskHeaderProps) (hooks : Hooks) (node : Node) :
  TaskHeader imports props hooks = Rendered node ->
  elements "ContextWindowProgress" node =
  if gt (or_undefined (model hooks ≫= contextWindowOf imports) (of_Z 1)) (of_Z 0)
  then [Element "ContextWindowProgress"
          [("contextWindow",
            PNumber (or_undefined (model hooks ≫= contextWindowOf imports) (of_Z 1)));
           ("contextTokens", PNumber (Num.or (contextTokens props) (of_Z 0)));
           ("maxTokens",
            PMaxTokens (getMaxTokensForModel imports (model hooks)
                          (apiConfiguration hooks)))] []]
  else [].
Proof.
  intros Hnode.
  pose proof (rendered_progress props hooks) as H.
  rewrite Hnode in H. simpl rendered in H. rewrite H.
  unfold TaskHeader in Hnode.
  destruct (isTaskExpanded hooks); [|reflexivity].
  destruct (task props); [reflexivity | discriminate Hnode].
Qed.

Lemma or_zero_not_NaN (x : Number) : Num.or x (of_Z 0) <> NaN.
Proof.
  unfold Num.or.
  destruct x as [| | |q]; simpl; try discriminate.
  destruct (negb (Qnum q =? 0)%Z); discriminate.
Qed.

(** X8. A progress bar in the rendered header always gets a context window
    greater than zero, and a token count that is not [NaN]. *)
Theorem TaskHeader_progress_props (props : TaskHeaderProps) (hooks : Hooks)
    (node bar : Node) :
  TaskHeader imports props hooks = Rendered node ->
  bar ∈ elements "ContextWindowProgress" node ->
  exists contextWindow contextTokens,
    prop "contextWindow" bar = Some (PNumber contextWindow) /\
    gt contextWindow (of_Z 0) = true /\
    prop "contextTokens" bar = Some (PNumber contextTokens) /\
    contextTokens <> NaN.
Proof.
  intros Hnode Hbar.
  rewrite (rendered_progress_node props hooks node Hnode) in Hbar.
  destruct (gt _ _) eqn:Hgt.
  - apply list_elem_of_singleton in Hbar as ->.
    eexists _, _. split; [reflexivity|].
    split; [exact Hgt|].
    split; [reflexivity|].
    apply or_zero_not_NaN.
  - now apply not_elem_of_nil in Hbar.
Qed.

(** [(x || 1) > 0] fails only for a negative [x]. *)
Lemma gt_or_one (x : option Number) :
  gt (or_undefined x (of_Z 1)) (of_Z 0) = false <->
  exists w, x = Some w /\ lt w (of_Z 0) = true.
Proof.
  destruct x as [[| | |q]|]; simpl.
  - split; [discriminate | intros (w & [= <-] & H); discriminate H].
  - split; [discriminate | intros (w & [= <-] & H); discriminate H].
  - split; [intros _; now eexists | reflexivity].
  - unfold Num.or, gt, lt, truthy, of_Z, Qltb.
    destruct (Z.eqb_spec (Qnum q) 0) as [Hz|Hz]; simpl.
    + split; [discriminate|].
      intros (w & [= <-] & H). apply Z.ltb_lt in H. simpl in H. lia.
    + split.
      * intros H. apply Z.ltb_ge in H. exists (Finite q).
        split; [reflexivity|]. apply Z.ltb_lt. simpl in *. lia.
      * intros (w & [= <-] & H). apply Z.ltb_lt in H. apply Z.ltb_ge.
        simpl in *. lia.
  - split; [discriminate | intros (w & H & _); discriminate H].
Qed.

(** X9. The rendered header lacks the context-window progress bar exactly
    when the selected model reports a negative context window; a missing
    model, a missing, zero or [NaN] context window all show the bar. *)
Theorem TaskHeader_progress_hidden_iff (props : TaskHeaderProps) (hooks : Hooks)
    (node : Node) :
  TaskHeader imports props hooks = Rendered node ->
  elements "ContextWindowProgress" node = [] <->
  exists w, model hooks ≫= contextWindowOf imports = Some w /\
            lt w (of_Z 0) = true.
Proof.
  intros Hnode.
  rewrite (rendered_progress_node props hooks node Hnode), <- gt_or_one.
  destruct (gt _ _); split; congruence.
Qed.

(** Where [Mention] is rendered, and on which text. *)
Lemma rendered_Mention (props : TaskHeaderProps) (hooks : Hooks) :
  rendered "Mention" (TaskHeader imports props hooks) =
  if isTaskExpanded hooks then
    match task props with
    | Some task => [Element "Mention" [("text", PText (text task))] []]
    | None => []
    end
  else [Element "Mention" [("text", PText (Some (firstLineOfTask (task props))))] []].
Proof.
  unfold TaskHeader.
  destruct (isTaskExpanded hooks); [destruct (task props) as [tk|]; [|reflexivity]|];
    unfold rendered; cbv zeta.
  - destruct (images tk) as [[|i l]|]; tree;
      rewrite ?elements_TokenUsage, ?elements_ApiCost, ?elements_CacheInfo,
        ?elements_ContextDisplay by compute_done;
      destruct (truthy (totalCost props)); split_gt; reflexivity.
  - tree.
    rewrite ?elements_TokenUsage, ?elements_ApiCost, ?elements_CacheInfo,
      ?elements_ContextDisplay by compute_done.
    destruct (truthy (totalCost props)), (doesModelSupportPromptCache props),
      (isPositiveNumber (cacheReads props)); split_gt; reflexivity.
Qed.

(** Where [Thumbnails] is rendered. *)
Lemma rendered_Thumbnails (props : TaskHeaderProps) (hooks : Hooks) :
  rendered "Thumbnails" (TaskHeader imports props hooks) =
  if isTaskExpanded hooks then
    match task props ≫= images with
    | Some (image :: others) =>
        [Element "Thumbnails" [("images", PImages (image :: others))] []]
    | _ => []
    end
  else [].
Proof.
  unfold TaskHeader.
  destruct (isTaskExpanded hooks); [destruct (task props) as [tk|]; [|reflexivity]|];
    unfold rendered; cbv zeta.
  - simpl mbind. destruct (images tk) as [[|i l]|]; tree;
      rewrite ?elements_TokenUsage, ?elements_ApiCost, ?elements_CacheInfo,
        ?elements_ContextDisplay by compute_done;
      destruct (truthy (totalCost props)); split_gt; reflexivity.
  - tree.
    rewrite ?elements_TokenUsage, ?elements_ApiCost, ?elements_CacheInfo,
      ?elements_ContextDisplay by compute_done.
    destruct (truthy (totalCost props)), (doesModelSupportPromptCache props),
      (isPositiveNumber (cacheReads props)); split_gt; reflexivity.
Qed.

(** X10. The collapsed header renders for every task, even a missing one,
    and mentions the first line of the task; the expanded header of a task
    renders and mentions its whole text; the expanded header of a missing
    task fails with a [TypeError]. *)
Theorem TaskHeader_shows_task_text (props : TaskHeaderProps) (hooks : Hooks) :
  (isTaskExpanded hooks = false ->
   exists node,
     TaskHeader imports props hooks = Rendered node /\
     elements "Mention" node =
       [Element "Mention" [("text", PText (Some (firstLineOfTask (task props))))] []]) /\
  (forall task', isTaskExpanded hooks = true -> task props = Some task' ->
   exists node,
     TaskHeader imports props hooks = Rendered node /\
     elements "Mention" node = [Element "Mention" [("text", PText (text task'))] []]) /\
  (isTaskExpanded hooks = true -> task props = None ->
   TaskHeader imports props hooks = TypeError).
Proof.
  pose proof (rendered_Mention props hooks) as H.
  split; [|split].
  - intros Hc. rewrite Hc in H.
    unfold TaskHeader in *. rewrite Hc in *.
    eexists. split; [reflexivity | exact H].
  - intros tk He Ht. rewrite He, Ht in H.
    unfold TaskHeader in *. rewrite He, Ht in *.
    eexists. split; [reflexivity | exact H].
  - intros He Ht. unfold TaskHeader. now rewrite He, Ht.
Qed.

(** X11. Thumbnails appear only in the expanded header and only for a task
    with at least one image: they are never rendered on an empty list. *)
Theorem TaskHeader_thumbnails_nonempty (props : TaskHeaderProps) (hooks : Hooks)
    (node thumbnails : Node) :
  TaskHeader imports props hooks = Rendered node ->
  thumbnails ∈ elements "Thumbnails" node ->
  isTaskExpanded hooks = true /\
  exists image others,
    task props ≫= images = Some (image :: others) /\
    prop "images" thumbnails = Some (PImages (image :: others)).
Proof.
  intros Hnode Hin.
  pose proof (rendered_Thumbnails props hooks) as H.
  rewrite Hnode in H. simpl rendered in H. rewrite H in Hin.
  destruct (isTaskExpanded hooks); [|now apply not_elem_of_nil in Hin].
  split; [reflexivity|].
  destruct (task props ≫= images) as [[|image others]|];
    try (now apply not_elem_of_nil in Hin).
  apply list_elem_of_singleton in Hin as ->.
  now exists image, others.
Qed.

(** X7. The rendered header never contains [TaskActions] twice, and the
    expanded header contains it exactly once, for the current task item,
    whatever the cost. *)
Theorem TaskHeader_actions_once (props : TaskHeaderProps) (hooks : Hooks)
    (node : Node) :
  TaskHeader imports props hooks = Rendered node ->
  (length (elements "TaskActions" node) <= 1)%nat /\
  (isTaskExpanded hooks = true ->
   elements "TaskActions" node =
     [Element "TaskActions" [("item", PItem (currentTaskItem hooks))] []]).
Proof.
  intros Hnode.
  pose proof (rendered_TaskActions props hooks) as H.
  rewrite Hnode in H. simpl rendered in H. rewrite H.
  unfold TaskHeader in Hnode.
  destruct (isTaskExpanded hooks).
  - destruct (task props); [|discriminate Hnode].
    split; [simpl; lia | reflexivity].
  - split; [|discriminate].
    destruct (gt _ _); simpl; lia.
Qed.
(** X13. The cache row is either absent or shows its label followed by at
    least one figure: the formatted cache writes, if a number above zero,
    then the formatted cache reads, if a number above zero.  It is absent,
    the component returning [null], exactly when the model has no prompt
    cache or there is no figure to show. *)
Theorem cacheInfo_row (t : string -> string) (supported : bool)
    (cacheWrites cacheReads : option Number) :
  let figure (a : option Number) :=
    a ≫= fun x => if gt x (of_Z 0) then Some (formatLargeNumber imports x) else None in
  let figures := omap figure [cacheWrites; cacheReads] in
  let row : Node :=
    TaskHeaderCacheInfoDisplay imports t supported cacheWrites cacheReads in
  (row = Null <-> supported = false \/ figures = []) /\
  (row <> Null -> figures <> [] /\ texts row = t "chat:task.cache" :: figures) /\
  texts row =
    match figures with
    | [] => []
    | _ => if supported then t "chat:task.cache" :: figures else []
    end.
Proof.
  unfold TaskHeaderCacheInfoDisplay, whenPositive, isPositiveNumber.
  destruct supported, cacheWrites as [w|], cacheReads as [r|]; cbn -[gt of_Z];
    repeat match goal with |- context [gt ?a ?b] => destruct (gt a b) end;
    cbn -[gt of_Z];
    (split; [split; [intros H; first [discriminate H | right; reflexivity | left; reflexivity]
                    | intros [H|H]; first [discriminate H | reflexivity]]
            | split; [intros H; first [now contradiction H | split; [discriminate | reflexivity]]
                     | reflexivity]]).
Qed.

(** X14. The token row always shows its label, followed by the formatted
    input tokens and then the formatted output tokens, each only when it is
    a number above zero. *)
Theorem tokenUsage_texts (t : string -> string) (tokensIn tokensOut : option Number) :
  let figure (a : option Number) :=
    a ≫= fun x => if gt x (of_Z 0) then Some (formatLargeNumber imports x) else None in
  texts (TaskHeaderTokenUsageDisplay imports t tokensIn tokensOut : Node) =
  t "chat:task.tokens" :: omap figure [tokensIn; tokensOut].
Proof.
  unfold TaskHeaderTokenUsageDisplay, whenPositive.
  destruct tokensIn as [w|], tokensOut as [r|]; cbn -[gt of_Z];
    repeat match goal with |- context [gt ?a ?b] => destruct (gt a b) end;
    reflexivity.
Qed.

Section Formats.

Variables (format' : Number -> string) (toFixed' : Number -> Z -> string).
Hypothesis format_agrees :
  forall x, gt x (of_Z 0) = true -> format' x = formatLargeNumber imports x.
Hypothesis toFixed_agrees :
  forall x, truthy x = true -> toFixed' x 2 = toFixed imports x 2.

Abbreviation imports' :=
  (mkImports format' (getMaxTokensForModel imports) (cn imports) toFixed'
             (contextWindowOf imports)).

Lemma whenPositive_agrees (a : option Number) (f g : Number -> Node) :
  (forall x, gt x (of_Z 0) = true -> f x = g x) ->
  whenPositive a f = whenPositive a g.
Proof.
  intros H. destruct a as [x|]; [|reflexivity].
  unfold whenPositive, when.
  destruct (gt x (of_Z 0)) eqn:Hx; [now apply H | reflexivity].
Qed.

Lemma tokenUsage_agrees t (i o : option Number) :
  (TaskHeaderTokenUsageDisplay imports' t i o : Node) =
  TaskHeaderTokenUsageDisplay imports t i o.
Proof.
  unfold TaskHeaderTokenUsageDisplay.
  do 3 f_equal; [|f_equal];
    apply whenPositive_agrees; intros x Hx; cbn -[gt of_Z];
    now rewrite (format_agrees x Hx).
Qed.

Lemma cacheInfo_agrees t (s : bool) (w r : option Number) :
  (TaskHeaderCacheInfoDisplay imports' t s w r : Node) =
  TaskHeaderCacheInfoDisplay imports t s w r.
Proof.
  unfold TaskHeaderCacheInfoDisplay.
  destruct (_ || _); [reflexivity|].
  do 3 f_equal; [|f_equal];
    apply whenPositive_agrees; intros x Hx; cbn -[gt of_Z];
    now rewrite (format_agrees x Hx).
Qed.

Lemma apiCost_agrees t (cost : Number) :
  (TaskHeaderApiCostDisplay imports' t cost : Node) =
  TaskHeaderApiCostDisplay imports t cost.
Proof.
  unfold TaskHeaderApiCostDisplay.
  destruct (truthy cost) eqn:Hc; [|reflexivity].
  simpl. now rewrite (toFixed_agrees cost Hc).
Qed.

Lemma badge_agrees (cost : Number) :
  when (truthy cost)
    (Element "VSCodeBadge" [("className", PString "ml-1")]
       [Text "$"; Text (toFixed' cost 2)] : Node) =
  when (truthy cost)
    (Element "VSCodeBadge" [("className", PString "ml-1")]
       [Text "$"; Text (toFixed imports cost 2)]).
Proof.
  destruct (truthy cost) eqn:Hc; [|reflexivity].
  simpl. now rewrite (toFixed_agrees cost Hc).
Qed.

(** X12. The header formats no number it does not show: changing what
    [formatLargeNumber] returns on numbers that are not above zero, and what
    [toFixed] returns on a zero or [NaN] cost, changes nothing in what is
    rendered. *)
Theorem TaskHeader_formats_only_shown_numbers (props : TaskHeaderProps) (hooks : Hooks) :
  TaskHeader imports' props hooks = TaskHeader imports props hooks.
Proof.
  unfold TaskHeader.
  rewrite !tokenUsage_agrees, !cacheInfo_agrees, !apiCost_agrees.
  change (toFixed imports' (totalCost props) 2) with (toFixed' (totalCost props) 2).
  rewrite badge_agrees.
  reflexivity.
Qed.

End Formats.

End ViewFacts.

(** ** The added properties on samples *)

Ltac absent_char :=
  let H := fresh "H" in
  intros (before & after & H);
  repeat (destruct before as [|? before]; [discriminate H|]; injection H as _ H);
  destruct before; discriminate H.

Lemma firstLineOfTask_prefix_witness :
  let s := "Fix the login bug" +:+ TaskHeader.newline +:+ "Steps:" in
  let task := Some (TaskHeader.mkClineMessage (Some s) None) in
  task ≫= TaskHeader.text = Some s /\
  exists rest,
    s = TaskHeader.firstLineOfTask task +:+ rest /\
    (rest = EmptyString \/ exists after, rest = TaskHeader.newline +:+ after).
Proof.
  intros s task.
  split; [reflexivity|].
  apply (firstLineOfTask_prefix task s).
  reflexivity.
Defined.

Lemma firstLineOfTask_keeps_carriage_return_witness :
  let cr := String (Ascii.ascii_of_nat 13) EmptyString in
  let tk := TaskHeader.mkClineMessage
              (Some ("one" +:+ cr +:+ TaskHeader.newline +:+ "two")) None in
  TaskHeader.firstLineOfTask (Some tk) = "one" +:+ cr.
Proof.
  intros cr tk.
  apply (firstLineOfTask_keeps_carriage_return tk "one" "two").
  - reflexivity.
  - absent_char.
Defined.

(** With double quotes in tool names a message can be read in two ways. *)
Example denialMessage_ambiguous :
  denialMessage "x" ("q" +:+ dquote +:+ " is not allowed in m") =
  denialMessage ("x" +:+ dquote +:+ " is not allowed in q") "m".
Proof. reflexivity. Qed.

Lemma denialMessage_injective_witness :
  "execute_command" = "execute_command" /\ "ask" = "ask".
Proof.
  apply (denialMessage_injective "execute_command" "execute_command" "ask" "ask").
  - absent_char.
  - absent_char.
  - reflexivity.
Defined.

Lemma TaskHeader_actions_once_witness :
  exists node,
    View.TaskHeader Sample.imports Sample.props (Sample.hooks true) = View.Rendered node /\
    (length (View.elements "TaskActions" node) <= 1)%nat /\
    (View.isTaskExpanded (Sample.hooks true) = true ->
     View.elements "TaskActions" node =
       [View.Element "TaskActions" [("item", View.PItem "task-1")] []]).
Proof.
  eexists. split; [reflexivity|].
  apply (TaskHeader_actions_once Sample.imports Sample.props (Sample.hooks true)).
  reflexivity.
Defined.

Lemma TaskHeader_progress_props_witness :
  exists node bar,
    View.TaskHeader Sample.imports Sample.props (Sample.hooks false) = View.Rendered node /\
    bar ∈ View.elements "ContextWindowProgress" node /\
    exists contextWindow contextTokens,
      View.prop "contextWindow" bar = Some (View.PNumber contextWindow) /\
      Num.gt contextWindow (Num.of_Z 0) = true /\
      View.prop "contextTokens" bar = Some (View.PNumber contextTokens) /\
      contextTokens <> Num.NaN.
Proof.
  eexists. eexists. split; [reflexivity|].
  assert (Hbar : View.Element "ContextWindowProgress"
                   [("contextWindow", View.PNumber (Num.of_Z 200000));
                    ("contextTokens", View.PNumber (Num.of_Z 3000));
                    ("maxTokens", View.PMaxTokens (Some (Num.of_Z 200000)))] []
                 ∈ View.rendered "ContextWindowProgress"
                     (View.TaskHeader Sample.imports Sample.props (Sample.hooks false)))
    by (vm_compute; left).
  split; [exact Hbar|].
  apply (TaskHeader_progress_props Sample.imports Sample.props (Sample.hooks false)
           _ _ eq_refl Hbar).
Defined.

Lemma TaskHeader_progress_hidden_iff_witness :
  exists node,
    View.TaskHeader Sample.imports Sample.props (Sample.hooks false) = View.Rendered node /\
    (View.elements "ContextWindowProgress" node = [] <->
     exists w, Some (Num.of_Z 200000) = Some w /\ Num.lt w (Num.of_Z 0) = true).
Proof.
  eexists. split; [reflexivity|].
  apply (TaskHeader_progress_hidden_iff Sample.imports Sample.props (Sample.hooks false)).
  reflexivity.
Defined.

Lemma TaskHeader_shows_task_text_witness :
  View.isTaskExpanded (Sample.hooks false) = false /\
  exists node,
    View.TaskHeader Sample.imports Sample.props (Sample.hooks false) = View.Rendered node /\
    View.elements "Mention" node =
      [View.Element "Mention" [("text", View.PText (Some "Fix the login bug"))] []].
Proof.
  split; [reflexivity|].
  apply (proj1 (TaskHeader_shows_task_text Sample.imports Sample.props (Sample.hooks false))).
  reflexivity.
Defined.

Lemma TaskHeader_thumbnails_nonempty_witness :
  exists node thumbnails,
    View.TaskHeader Sample.imports Sample.props (Sample.hooks true) = View.Rendered node /\
    thumbnails ∈ View.elements "Thumbnails" node /\
    View.isTaskExpanded (Sample.hooks true) = true /\
    exists image others,
      View.task Sample.props ≫= TaskHeader.images = Some (image :: others) /\
      View.prop "images" thumbnails = Some (View.PImages (image :: others)).
Proof.
  eexists. eexists. split; [reflexivity|].
  assert (Hin : View.Element "Thumbnails" [("images", View.PImages ["screenshot.png"])] []
                ∈ View.rendered "Thumbnails"
                    (View.TaskHeader Sample.imports Sample.props (Sample.hooks true)))
    by (vm_compute; left).
  split; [exact Hin|].
  apply (TaskHeader_thumbnails_nonempty Sample.imports Sample.props (Sample.hooks true)
           _ _ eq_refl Hin).
Defined.

Lemma TaskHeader_formats_only_shown_numbers_witness :
  let format' := fun x => if Num.gt x (Num.of_Z 0) then "1.2k" else "NaN" in
  let toFixed' := fun x (digits : Z) => if Num.truthy x then "0.42" else "0.00" in
  View.TaskHeader
    (View.mkImports format' (View.getMaxTokensForModel Sample.imports)
       (View.cn Sample.imports) toFixed' (View.contextWindowOf Sample.imports))
    Sample.props (Sample.hooks true) =
  View.TaskHeader Sample.imports Sample.props (Sample.hooks true).
Proof.
  intros format' toFixed'.
  apply (TaskHeader_formats_only_shown_numbers Sample.imports format' toFixed').
  - intros x Hx. unfold format'. rewrite Hx. reflexivity.
  - intros x Hx. unfold toFixed'. rewrite Hx. reflexivity.
Defined.
